(** * A shallow embedding of zsh-history-cleaner.py

    The cleaner reads a zsh history file line by line, regroups the lines
    into entries, parses each entry with the regular expression
    "^: (\d+:\d+);(.*)$", and keeps or drops it after checking the
    user's allow rules (commands to delete), ignore rules (commands to
    keep), a length limit, a few noise patterns and a set of commands
    already seen.

    Modelling choices:
    - a Python [str] is a [string]; each [ascii] stands for the code point
      U+0000..U+00FF with the same number, so Python's [str.isspace],
      [str.lower], [\s], [\d] and [.] are written out for that range;
    - the object [ZshHistoryCleaner] is a record of the mutable fields
      ([stats], [seen_commands], [cleaned_entries]); the configuration
      fields ([ignore_rules], [allow_rules], [max_command_length]) never
      change after [__init__] and are Section variables;
    - a method is a computation in a state-and-exception monad: a raised
      exception keeps the mutations done before it, as in Python;
    - a compiled regular expression ([re.compile(...)]) is given by its
      [search] function, and [re.compile] itself is a parameter of rule
      construction. *)

From Stdlib Require Import Ascii String Bool Arith Lia.
From stdpp Require Import base gmap strings list.

Open Scope string_scope.

(** stdpp makes [String.append] opaque to [simpl]; this file computes
    with it. *)
#[local] Arguments String.append : simpl nomatch.

(** ** Python [str] helpers on code points U+0000..U+00FF *)
Module Py.

(** [str.isspace] / [\s]: 9..13, 28..32, U+0085 and U+00A0. *)
Definition is_space (c : ascii) : bool :=
  let n := nat_of_ascii c in
  (Nat.leb 9 n && Nat.leb n 13) || (Nat.leb 28 n && Nat.leb n 32)
  || Nat.eqb n 133 || Nat.eqb n 160.

(** [\d]: the decimal digits of the range are 0..9 only. *)
Definition is_digit (c : ascii) : bool :=
  let n := nat_of_ascii c in Nat.leb 48 n && Nat.leb n 57.

Definition is_newline (c : ascii) : bool := Ascii.eqb c "010"%char.

(** [str.lower]: A..Z and U+00C0..U+00DE except U+00D7. *)
Definition lower_char (c : ascii) : ascii :=
  let n := nat_of_ascii c in
  if (Nat.leb 65 n && Nat.leb n 90)
     || (Nat.leb 192 n && Nat.leb n 222 && negb (Nat.eqb n 215))
  then ascii_of_nat (n + 32) else c.

Fixpoint lower (s : string) : string :=
  match s with
  | EmptyString => EmptyString
  | String c t => String (lower_char c) (lower t)
  end.

Fixpoint lstrip_by (p : ascii -> bool) (s : string) : string :=
  match s with
  | String c t => if p c then lstrip_by p t else s
  | EmptyString => EmptyString
  end.

Fixpoint rstrip_by (p : ascii -> bool) (s : string) : string :=
  match s with
  | EmptyString => EmptyString
  | String c t =>
      let t' := rstrip_by p t in
      if p c && String.eqb t' "" then EmptyString else String c t'
  end.

(** [s.strip()] *)
Definition strip (s : string) : string :=
  rstrip_by is_space (lstrip_by is_space s).

(** [line.rstrip("\n\r")] *)
Definition rstrip_nl (s : string) : string :=
  rstrip_by (fun c => Ascii.eqb c "010"%char || Ascii.eqb c "013"%char) s.

(** [s.startswith(p)] *)
Definition startswith (s p : string) : bool := String.prefix p s.

(** [p in s] *)
Fixpoint contains (p s : string) : bool :=
  String.prefix p s
  || match s with
     | String _ t => contains p t
     | EmptyString => false
     end.

(** [s.endswith(p)] *)
Fixpoint endswith (s p : string) : bool :=
  String.eqb s p
  || match s with
     | String _ t => endswith t p
     | EmptyString => false
     end.

(** The longest prefix whose characters satisfy [p], and the rest. *)
Fixpoint span (p : ascii -> bool) (s : string) : string * string :=
  match s with
  | String c t =>
      if p c then let '(a, b) := span p t in (String c a, b)
      else (EmptyString, s)
  | EmptyString => (EmptyString, EmptyString)
  end.

Definition nl : string := String "010"%char EmptyString.

Definition not_newline (c : ascii) : bool := negb (is_newline c).

End Py.

(** ** [parse_history_entry]: re.match(r"^: (\d+:\d+);(.*)$", line)

    No flag is given, so [.] does not match a newline and [$] matches at
    the end of the string or just before a newline that ends it.  The
    greedy "\d+" groups are followed by [:] and [;], which are not digits,
    so each of them is the longest run of digits at its place.  "(.*)"
    takes the longest run without newline; [$] then holds when that run
    reaches the end or is followed by a final newline, and backtracking
    to a shorter run only lands before a non-newline character. *)

Definition dot_star_dollar (s : string) : option string :=
  let '(cmd, rest) := Py.span Py.not_newline s in
  if String.eqb rest "" then Some cmd
  else if String.eqb rest Py.nl then Some cmd
  else None.

Definition parse_history_entry (line : string) : option (string * string) :=
  match line with
  | String ":" (String " " r) =>
      let '(d1, r1) := Py.span Py.is_digit r in
      match d1, r1 with
      | String _ _, String ":" r2 =>
          let '(d2, r3) := Py.span Py.is_digit r2 in
          match d2, r3 with
          | String _ _, String ";" tail =>
              match dot_star_dollar tail with
              | Some command => Some (d1 ++ ":" ++ d2, command)
              | None => None
              end
          | _, _ => None
          end
      | _, _ => None
      end
  | _ => None
  end.

(** The formatted output line [f": {timestamp_part};{command}"]. *)
Definition format_entry (timestamp_part command : string) : string :=
  ": " ++ timestamp_part ++ ";" ++ command.

(** ** [FilterRule] *)

Definition exn := string.

(** An instance of [FilterRule]; [compiled_regex] is the [search] method
    of the compiled pattern, [None] for every other match type. *)
Record FilterRule := mkFilterRule {
  pattern : string;
  match_type : string;
  case_sensitive : bool;
  compiled_regex : option (string -> bool)
}.

(** [FilterRule.__init__].  [re_compile pattern ignorecase] is Python's
    [re.compile(pattern, flags)]: the [search] function of the compiled
    pattern, or the message of the [re.error] it raises. *)
Definition FilterRule_init
    (re_compile : string -> bool -> exn + (string -> bool))
    (pattern match_type : string) (case_sensitive : bool)
    : exn + FilterRule :=
  let mt := Py.lower match_type in
  if String.eqb mt "regex" then
    match re_compile pattern (negb case_sensitive) with
    | inr search => inr (mkFilterRule pattern mt case_sensitive (Some search))
    | inl e => inl ("Invalid regex pattern '" ++ pattern ++ "': " ++ e)
    end
  else inr (mkFilterRule pattern mt case_sensitive None).

(** [FilterRule.matches]; [inl] is a raised exception. *)
Definition matches (r : FilterRule) (command : string) : exn + bool :=
  let text := if case_sensitive r then command else Py.lower command in
  let pat := if case_sensitive r then pattern r else Py.lower (pattern r) in
  let mt := match_type r in
  if String.eqb mt "exact" then inr (String.eqb text pat)
  else if String.eqb mt "contains" then inr (Py.contains pat text)
  else if String.eqb mt "starts_with" then inr (Py.startswith text pat)
  else if String.eqb mt "ends_with" then inr (Py.endswith text pat)
  else if String.eqb mt "regex" then
    match compiled_regex r with
    | Some search => inr (search command)
    | None => inl "'NoneType' object has no attribute 'search'"
    end
  else inl ("Unknown match type: " ++ mt).

(** The loop of [check_ignore_rules] and [check_allow_rules]. *)
Fixpoint check_rules (rules : list FilterRule) (command : string)
    : exn + bool :=
  match rules with
  | [] => inr false
  | rule :: rest =>
      match matches rule command with
      | inl e => inl e
      | inr true => inr true
      | inr false => check_rules rest command
      end
  end.

(** ** The noise patterns of [is_command_worth_keeping], searched with
    [re.search]. *)
Module Noise.

(** Number of leading characters satisfying [p]. *)
Fixpoint run_len (p : ascii -> bool) (s : string) : nat :=
  match s with
  | String c t => if p c then S (run_len p t) else 0
  | EmptyString => 0
  end.

(** Some position starts [k] or more consecutive characters satisfying
    [p]: the search of "x{k,}" for a one-character class x. *)
Fixpoint has_run (p : ascii -> bool) (k : nat) (s : string) : bool :=
  Nat.leb k (run_len p s)
  || match s with
     | String _ t => has_run p k t
     | EmptyString => false
     end.

(** r"-{20,}" *)
Definition many_dashes (s : string) : bool := has_run (Ascii.eqb "-") 20 s.
(** r"={20,}" *)
Definition many_equals (s : string) : bool := has_run (Ascii.eqb "=") 20 s.
(** r"\s{10,}" *)
Definition many_spaces (s : string) : bool := has_run Py.is_space 10 s.

(** r"\[.*\]{3,}": a [\[], then characters other than newline, then
    three or more [\]]; the greedy dot run stops at the first newline. *)
Fixpoint progress_bars (s : string) : bool :=
  match s with
  | String "[" t =>
      Py.contains "]]]" (fst (Py.span Py.not_newline t))
      || progress_bars t
  | String _ t => progress_bars t
  | EmptyString => false
  end.

(** r"(.)\1{15,}": a non-newline character followed by 15 or more
    copies of itself. *)
Fixpoint repeated_char (s : string) : bool :=
  match s with
  | String c t =>
      (negb (Py.is_newline c) && Nat.leb 15 (run_len (Ascii.eqb c) t))
      || repeated_char t
  | EmptyString => false
  end.

(** The list [repetitive_patterns], in source order. *)
Definition repetitive_patterns : list (string -> bool) :=
  [many_dashes; many_equals; progress_bars; many_spaces; repeated_char].

End Noise.

(** ** [normalize_command] *)
Module Normalize.

(** re.sub(r"\s+", " ", s): every maximal whitespace run becomes one
    space; [in_ws] says the previous character was whitespace. *)
Fixpoint collapse_ws_from (in_ws : bool) (s : string) : string :=
  match s with
  | EmptyString => EmptyString
  | String c t =>
      if Py.is_space c then
        if in_ws then collapse_ws_from true t
        else String " " (collapse_ws_from true t)
      else String c (collapse_ws_from false t)
  end.

Definition collapse_ws (s : string) : string := collapse_ws_from false s.

(** re.sub(r"\\\s*\n\s*", " ", s).  At a backslash the first "\s*" takes
    the whole whitespace run and backtracks to its last newline, the
    second takes the rest of the run: the match is the backslash and
    its whole whitespace run, when that run holds a newline.  Elsewhere
    the scan moves on by one character.  [fuel] bounds the length. *)
Fixpoint sub_bs_newline_fuel (fuel : nat) (s : string) : string :=
  match fuel with
  | 0 => s
  | S fuel' =>
      match s with
      | EmptyString => EmptyString
      | String c t =>
          if Ascii.eqb c "\" then
            let '(ws, rest) := Py.span Py.is_space t in
            if Py.contains Py.nl ws
            then String " " (sub_bs_newline_fuel fuel' rest)
            else String c (sub_bs_newline_fuel fuel' t)
          else String c (sub_bs_newline_fuel fuel' t)
      end
  end.

Definition sub_bs_newline (s : string) : string :=
  sub_bs_newline_fuel (String.length s) s.

(** re.sub(r"\\\s*$", "", s): a backslash followed only by whitespace
    up to the end is removed with that whitespace. *)
Fixpoint sub_bs_end (s : string) : string :=
  match s with
  | EmptyString => EmptyString
  | String c t =>
      if Ascii.eqb c "\" && String.eqb (Py.lstrip_by Py.is_space t) ""
      then EmptyString
      else String c (sub_bs_end t)
  end.

End Normalize.

(** [ZshHistoryCleaner.normalize_command] *)
Definition normalize_command (command : string) : string :=
  let normalized := Normalize.collapse_ws (Py.strip command) in
  let normalized := Normalize.sub_bs_newline normalized in
  Normalize.sub_bs_end normalized.

(** ** The mutable state of a [ZshHistoryCleaner] *)

(** The keys of the dictionary [self.stats]. *)
Inductive stat_key :=
  | total_lines | valid_entries | duplicates_removed | too_long_removed
  | malformed_removed | ignored_kept | allowed_removed | pattern_removed
  | final_entries.

#[global] Instance stat_key_eq_dec : EqDecision stat_key.
Proof. solve_decision. Defined.

(** [self.stats]: a dictionary with a fixed set of keys. *)
Definition stats_t := stat_key -> nat.

Definition set_stat (k : stat_key) (v : nat) (st : stats_t) : stats_t :=
  fun k' => if decide (k = k') then v else st k'.

Record cleaner := mkCleaner {
  stats : stats_t;
  seen_commands : gset string;
  cleaned_entries : list string
}.

(** The state right after [__init__]. *)
Definition init_cleaner : cleaner :=
  mkCleaner (fun _ => 0) ∅ [].

(** ** A state-and-exception monad: an exception keeps the state reached
    when it was raised. *)
Definition M (A : Type) : Type := cleaner -> (exn + A) * cleaner.

Definition ret {A} (a : A) : M A := fun s => (inr a, s).
Definition bind {A B} (m : M A) (k : A -> M B) : M B :=
  fun s => match m s with
           | (inl e, s') => (inl e, s')
           | (inr a, s') => k a s'
           end.
Definition get : M cleaner := fun s => (inr s, s).
Definition modify (f : cleaner -> cleaner) : M unit := fun s => (inr tt, f s).
(** Raise the exception of a pure computation. *)
Definition lift {A} (r : exn + A) : M A := fun s => (r, s).
(** [try: body except Exception: handler] *)
Definition try_except {A} (body : M A) (handler : exn -> M A) : M A :=
  fun s => match body s with
           | (inl e, s') => handler e s'
           | (inr a, s') => (inr a, s')
           end.

#[global] Instance M_ret : MRet M := @ret.
#[global] Instance M_bind : MBind M := fun A B k m => bind m k.

(** [let* x := m in k] elaborates [m] before [k], so that the type of
    [x] is known inside [k]; [m ;; k] is stdpp's sequencing. *)
Notation "'let*' x ':=' m 'in' k" := (bind m (fun x => k))
  (at level 200, x name, m at level 100, k at level 200).
Notation "'let*' ' p ':=' m 'in' k" :=
  (bind m (fun x => match x with p => k end))
  (at level 200, p pattern, m at level 100, k at level 200).

(** [self.stats[k] += 1] *)
Definition incr (k : stat_key) : M unit :=
  modify (fun s => mkCleaner (set_stat k (S (stats s k)) (stats s))
                             (seen_commands s) (cleaned_entries s)).

(** [self.stats[k] = v] *)
Definition assign (k : stat_key) (v : nat) : M unit :=
  modify (fun s => mkCleaner (set_stat k v (stats s))
                             (seen_commands s) (cleaned_entries s)).

(** [self.seen_commands.add(x)] *)
Definition add_seen (x : string) : M unit :=
  modify (fun s => mkCleaner (stats s) ({[x]} ∪ seen_commands s)
                             (cleaned_entries s)).

(** [self.cleaned_entries.append(x)] *)
Definition append_entry (x : string) : M unit :=
  modify (fun s => mkCleaner (stats s) (seen_commands s)
                             (cleaned_entries s ++ [x])).

Definition is_nonempty (s : string) : bool := negb (String.eqb s "").

(** ** The methods, for the configuration read by [__init__] *)
Section Cleaner.

Variable ignore_rules : list FilterRule.
Variable allow_rules : list FilterRule.
Variable max_command_length : nat.

Definition check_ignore_rules (command : string) : exn + bool :=
  check_rules ignore_rules command.

Definition check_allow_rules (command : string) : exn + bool :=
  check_rules allow_rules command.

(** [is_command_worth_keeping]: [(should_keep, reason_if_not)]. *)
Definition is_command_worth_keeping (command0 : string)
    : exn + (bool * string) :=
  let command := Py.strip command0 in
  if negb (is_nonempty command) then inr (false, "empty") else
  match check_allow_rules command with
  | inl e => inl e
  | inr true => inr (false, "allow_rule_match")
  | inr false =>
      match check_ignore_rules command with
      | inl e => inl e
      | inr true => inr (true, "ignore_rule_match")
      | inr false =>
          if Nat.ltb max_command_length (String.length command)
          then inr (false, "too_long")
          else if existsb (fun search => search command)
                          Noise.repetitive_patterns
          then inr (false, "repetitive_pattern")
          else inr (true, "")
      end
  end.

(** [_process_entry] *)
Definition _process_entry (entry : string) : M unit :=
  match parse_history_entry entry with
  | None => incr malformed_removed
  | Some (timestamp_part, command) =>
      incr valid_entries ;;
      let* allowed := lift (check_allow_rules command) in
      if allowed then incr allowed_removed else (
      let* ignored := lift (check_ignore_rules command) in
      if ignored then
        incr ignored_kept ;;
        add_seen (normalize_command command) ;;
        append_entry (format_entry timestamp_part command)
      else
        let* '(keep, reason) := lift (is_command_worth_keeping command) in
        if negb keep then
          (if String.eqb reason "too_long" then incr too_long_removed
           else incr pattern_removed)
        else
          let normalized := normalize_command command in
          let* s := get in
          if decide (normalized ∈ seen_commands s) then
            incr duplicates_removed
          else
            add_seen normalized ;;
            append_entry (format_entry timestamp_part command))
  end.

(** Entry start test of [process_history]. *)
Definition starts_entry (line : string) : bool :=
  Py.startswith line ": " && Py.contains ":" line && Py.contains ";" line.

(** The [for] loop of [process_history], with [current_entry]. *)
Fixpoint process_lines (lines : list string) (current_entry : string)
    : M string :=
  match lines with
  | [] => ret current_entry
  | raw :: rest =>
      let line := Py.rstrip_nl raw in
      if starts_entry line then
        (if is_nonempty current_entry then _process_entry current_entry
         else ret tt) ;;
        process_lines rest line
      else if is_nonempty current_entry then
        process_lines rest (current_entry ++ Py.nl ++ line)
      else
        incr malformed_removed ;;
        process_lines rest current_entry
  end.

(** [process_history], from the list [f.readlines()]. *)
Definition process_history (lines : list string) : M bool :=
  try_except
    (assign total_lines (length lines) ;;
     let* current_entry := process_lines lines "" in
     (if is_nonempty current_entry then _process_entry current_entry
      else ret tt) ;;
     let* s := get in
     assign final_entries (length (cleaned_entries s)) ;;
     ret true)
    (fun _ => ret false).

(** One step of a run of [process_history] that touches the state: a call
    of [_process_entry] that returns, or the count of an orphaned line. *)
Inductive pipeline_step : cleaner -> cleaner -> Prop :=
  | step_entry (entry : string) (s s' : cleaner) :
      _process_entry entry s = (inr tt, s') -> pipeline_step s s'
  | step_orphan (s s' : cleaner) :
      incr malformed_removed s = (inr tt, s') -> pipeline_step s s'.

End Cleaner.

(** ** The history file *)

(** Reading in text mode translates "\r\n" and "\r" to "\n". *)
Fixpoint translate_newlines (s : string) : string :=
  match s with
  | EmptyString => EmptyString
  | String "013" (String "010" t) => String "010" (translate_newlines t)
  | String "013" t => String "010" (translate_newlines t)
  | String c t => String c (translate_newlines t)
  end.

(** Split after each newline; [acc] is the line read so far. *)
Fixpoint split_lines (acc : string) (s : string) : list string :=
  match s with
  | EmptyString => if is_nonempty acc then [acc] else []
  | String c t =>
      if Py.is_newline c then (acc ++ Py.nl) :: split_lines "" t
      else split_lines (acc ++ String c "") t
  end.

(** [f.readlines()] on a file opened with [open(path, "r")]. *)
Definition readlines (content : string) : list string :=
  split_lines "" (translate_newlines content).

(** The file written by [write_cleaned_history]. *)
Definition written_history (entries : list string) : string :=
  String.concat "" (map (fun e => e ++ Py.nl) entries).

(** A run of the cleaner on a fresh object over a file's contents. *)
Definition run_cleaner (ignore_rules allow_rules : list FilterRule)
    (max_command_length : nat) (content : string) : bool * cleaner :=
  let '(r, s) := process_history ignore_rules allow_rules max_command_length
                   (readlines content) init_cleaner in
  (match r with inr b => b | inl _ => false end, s).

(** ** The files [clean] touches

    The file system maps paths to contents; distinct paths name distinct
    files.  A file operation can raise ([OSError]: a missing or unreadable
    file, a refused permission, a full disk, an I/O error); the operations
    are relations that allow each of these outcomes. *)
Abbreviation file_system := (gmap string string).

(** [open(path, "w")] followed by writing [c]: the write completes, or
    it raises; it then leaves the file untouched (the open is refused) or
    holding the part [q] of [c] written before the error ([open]
    truncates the file first). *)
Inductive write_file (path c : string) (w : file_system)
    : bool -> file_system -> Prop :=
  | write_done : write_file path c w true (<[path:=c]> w)
  | write_refused : write_file path c w false w
  | write_partial q r : c = q ++ r -> write_file path c w false (<[path:=q]> w).

(** [shutil.copy2(src, dst)]: reading [src] may raise before [dst] is
    opened; otherwise its contents are written to [dst] as by
    [write_file] (a failure of the metadata copy leaves all of it
    written). *)
Inductive copy2 (src dst : string) (w : file_system)
    : bool -> file_system -> Prop :=
  | copy2_unread : copy2 src dst w false w
  | copy2_write c b w' :
      w !! src = Some c -> write_file dst c w b w' -> copy2 src dst w b w'.

(** [self.history_file.parent / f"{self.history_file.name}.backup_{timestamp}"],
    the path as pathlib prints it. *)
Definition backup_path (history_file timestamp : string) : string :=
  history_file ++ ".backup_" ++ timestamp.

(** [create_backup] at the time [timestamp], with its result. *)
Definition create_backup (history_file timestamp : string)
    (w : file_system) (ok : bool) (w' : file_system) : Prop :=
  copy2 history_file (backup_path history_file timestamp) w ok w'.

(** [restore_from_backup] after [create_backup] set [self.backup_file]. *)
Inductive restore_from_backup (history_file timestamp : string)
    (w : file_system) : bool -> file_system -> Prop :=
  | restore_missing :
      w !! backup_path history_file timestamp = None ->
      restore_from_backup history_file timestamp w false w
  | restore_copy c ok w' :
      w !! backup_path history_file timestamp = Some c ->
      copy2 (backup_path history_file timestamp) history_file w ok w' ->
      restore_from_backup history_file timestamp w ok w'.

(** [process_history] on a fresh object: opening or reading the history
    file may raise before anything is counted; otherwise the run is
    [run_cleaner] on its contents. *)
Inductive process_history_file ignore_rules allow_rules max_command_length
    (history_file : string) (w : file_system) : bool * cleaner -> Prop :=
  | process_unread :
      process_history_file ignore_rules allow_rules max_command_length
        history_file w (false, init_cleaner)
  | process_read content :
      w !! history_file = Some content ->
      process_history_file ignore_rules allow_rules max_command_length
        history_file w
        (run_cleaner ignore_rules allow_rules max_command_length content).

(** [write_cleaned_history]: one [write] per entry into the file opened
    with [open(path, "w")]. *)
Definition write_cleaned_history (history_file : string) (s : cleaner)
    (w : file_system) (ok : bool) (w' : file_system) : Prop :=
  write_file history_file (written_history (cleaned_entries s)) w ok w'.

(** [clean] on a fresh object: its result, the file system after it, and
    the object's state. *)
Inductive clean ignore_rules allow_rules max_command_length
    (history_file timestamp : string) (w : file_system)
    : bool -> file_system -> cleaner -> Prop :=
  | clean_no_backup w1 :
      create_backup history_file timestamp w false w1 ->
      clean ignore_rules allow_rules max_command_length history_file
        timestamp w false w1 init_cleaner
  | clean_process_failed w1 s ok w2 :
      create_backup history_file timestamp w true w1 ->
      process_history_file ignore_rules allow_rules max_command_length
        history_file w1 (false, s) ->
      restore_from_backup history_file timestamp w1 ok w2 ->
      clean ignore_rules allow_rules max_command_length history_file
        timestamp w false w2 s
  | clean_write_failed w1 s w2 ok w3 :
      create_backup history_file timestamp w true w1 ->
      process_history_file ignore_rules allow_rules max_command_length
        history_file w1 (true, s) ->
      write_cleaned_history history_file s w1 false w2 ->
      restore_from_backup history_file timestamp w2 ok w3 ->
      clean ignore_rules allow_rules max_command_length history_file
        timestamp w false w3 s
  | clean_done w1 s w2 :
      create_backup history_file timestamp w true w1 ->
      process_history_file ignore_rules allow_rules max_command_length
        history_file w1 (true, s) ->
      write_cleaned_history history_file s w1 true w2 ->
      clean ignore_rules allow_rules max_command_length history_file
        timestamp w true w2 s.

(** ** Predicates used in the statements *)

(** Every character of [s] satisfies [p]. *)
Fixpoint all_chars (p : ascii -> bool) (s : string) : bool :=
  match s with
  | EmptyString => true
  | String c t => p c && all_chars p t
  end.

Definition not_cr (c : ascii) : bool := negb (Ascii.eqb c "013"%char).

(** The match types [FilterRule.matches] knows. *)
Definition known_match_type (mt : string) : bool :=
  existsb (String.eqb mt) ["exact"; "contains"; "starts_with"; "ends_with"; "regex"].

(** A rule on which [matches] never raises: a known match type, and a
    compiled pattern for a regex rule. *)
Definition well_formed_rule (r : FilterRule) : bool :=
  known_match_type (match_type r)
  && (if String.eqb (match_type r) "regex"
      then match compiled_regex r with Some _ => true | None => false end
      else true).

(** No rule of [rules] matches [c], and none of them raises on it. *)
Definition matches_no_rule (rules : list FilterRule) (c : string) : Prop :=
  Forall (fun r => matches r c = inr false) rules.

(** Every valid entry so far is counted by one removal counter or is in
    [cleaned_entries]. *)
Definition stats_balanced (s : cleaner) : Prop :=
  stats s valid_entries
  = stats s allowed_removed + stats s too_long_removed
    + stats s pattern_removed + stats s duplicates_removed
    + length (cleaned_entries s).

(** A count of 1 for [true]. *)
Definition b2n (b : bool) : nat := if b then 1 else 0.

(** No whitespace character other than a space, and no space at the
    start ([prev_ws] is [true] there) or right after another one. *)
Fixpoint single_spaced (prev_ws : bool) (s : string) : bool :=
  match s with
  | EmptyString => true
  | String c t =>
      if Py.is_space c
      then negb prev_ws && Ascii.eqb c " " && single_spaced true t
      else single_spaced false t
  end.

(** *** The kept entries of a run *)

(** A [timestamp_part] as the parser returns it: two non-empty runs of
    digits around [:]. *)
Definition timestamp_ok (ts : string) : Prop :=
  exists d1 d2, ts = d1 ++ ":" ++ d2 /\ d1 <> "" /\ d2 <> ""
    /\ all_chars Py.is_digit d1 = true /\ all_chars Py.is_digit d2 = true.

(** The output lines of the parsed entries [(timestamp_part, command)]. *)
Definition kept_lines (ks : list (string * string)) : list string :=
  map (fun k => format_entry (fst k) (snd k)) ks.

(** Their normalized commands. *)
Definition norms (ks : list (string * string)) : list string :=
  map (fun k => normalize_command (snd k)) ks.

Section Kept.

Variables (ignore_rules allow_rules : list FilterRule) (max_command_length : nat).

(** Why [_process_entry] kept the entry [k] after the kept entries
    [prev]: the command has no newline and no carriage return, no allow
    rule matches it, and an ignore rule matches it, or none does, the
    filters keep it and its normalized form is not one of [prev]'s. *)
Definition kept_ok (prev : list (string * string)) (k : string * string)
    : Prop :=
  timestamp_ok (fst k)
  /\ all_chars Py.not_newline (snd k) = true
  /\ all_chars not_cr (snd k) = true
  /\ check_allow_rules allow_rules (snd k) = inr false
  /\ (check_ignore_rules ignore_rules (snd k) = inr true
      \/ (check_ignore_rules ignore_rules (snd k) = inr false
          /\ (exists reason, is_command_worth_keeping ignore_rules allow_rules
                               max_command_length (snd k)
                             = inr (true, reason))
          /\ normalize_command (snd k) ∉ norms prev)).

(** Each entry of [ks] was kept after [prev] and the entries before it. *)
Fixpoint kept_from (prev ks : list (string * string)) : Prop :=
  match ks with
  | [] => True
  | k :: ks' => kept_ok prev k /\ kept_from (prev ++ [k]) ks'
  end.

(** The state of a run: its output is the lines of entries kept in this
    way, whose normalized commands are all in [seen_commands]. *)
Definition first_pass_inv (s : cleaner) : Prop :=
  exists ks, cleaned_entries s = kept_lines ks /\ kept_from [] ks
    /\ list_to_set (norms ks) ⊆ seen_commands s.

(** The calls [self._process_entry(e)] for the entries [es] in turn. *)
Fixpoint process_entries (es : list string) : M unit :=
  match es with
  | [] => ret tt
  | e :: es' =>
      _process_entry ignore_rules allow_rules max_command_length e ;;
      process_entries es'
  end.

End Kept.

(** The state of the line loop after the lines [done]: the output is a
    subsequence of [done], and the entry being accumulated starts with a
    newline-free line of [done] that comes after every output line. *)
Definition acc_inv (done : list string) (cur : string) (s : cleaner) : Prop :=
  sublist (cleaned_entries s) done
  /\ (cur = ""
      \/ exists l0 x, cur = l0 ++ x /\ all_chars Py.not_newline l0 = true
           /\ (x = "" \/ exists y, x = Py.nl ++ y)
           /\ sublist (cleaned_entries s ++ [l0])%list done).

(** ** Rules and inputs used in examples *)

(** The ignore rule [{"pattern": "git commit", "match_type": "starts_with"}]
    of the default configuration. *)
Definition git_commit_rule : FilterRule :=
  mkFilterRule "git commit" "starts_with" false None.

(** The allow rule [{"pattern": "error: failed to commit transaction",
    "match_type": "contains"}] of the default configuration. *)
Definition failed_commit_rule : FilterRule :=
  mkFilterRule "error: failed to commit transaction" "contains" false None.

(** The allow rule "^\s*$" (regex) of the default configuration:
    searching it succeeds exactly on the strings made of whitespace. *)
Definition blank_rule : FilterRule :=
  mkFilterRule "^\s*$" "regex" false (Some (all_chars Py.is_space)).

(** An ignore rule with the empty pattern: every command contains it. *)
Definition empty_contains_rule : FilterRule :=
  mkFilterRule "" "contains" false None.

(** A stand-in for [re.compile] used with non-regex rules only. *)
Definition no_regex (_ : string) (_ : bool) : exn + (string -> bool) :=
  inl "regular expressions are not used here".

(** The spec's duplicate example: [: 111:0;echo hi] twice. *)
Definition duplicate_history : string :=
  ": 111:0;echo hi" ++ Py.nl ++ ": 111:0;echo hi" ++ Py.nl.

(** The spec's continuation example: the line [: 5:0;echo \] followed by
    the line [: not-a-new-entry], which has no [;] and so continues the
    entry. *)
Definition continuation_history : string :=
  ": 5:0;echo " ++ String "\" Py.nl ++ ": not-a-new-entry" ++ Py.nl.

(** Three entries, two of which differ only in whitespace. *)
Definition spaced_history : string :=
  ": 1:0;ls -l" ++ Py.nl ++ ": 2:0;ls   -l  " ++ Py.nl ++ ": 3:0;pwd" ++ Py.nl.

(** A file system with the history file [hist] holding
    [duplicate_history]. *)
Definition sample_fs : file_system := {[ "hist" := duplicate_history ]}.

(** ** Proofs *)

(** *** Strings *)

Lemma str_app_assoc (a b c : string) : (a ++ b) ++ c = a ++ (b ++ c).
Proof. induction a as [|x a IH]; simpl; [reflexivity | now rewrite IH]. Qed.

Lemma str_app_nil_r (a : string) : a ++ "" = a.
Proof. induction a as [|x a IH]; simpl; [reflexivity | now rewrite IH]. Qed.

(** Normalise string expressions: compute [++] on literals and
    reassociate to the right. *)
Ltac str_norm :=
  repeat (progress (simpl; rewrite ?str_app_assoc, ?str_app_nil_r)).

Lemma all_chars_app p a b :
  all_chars p (a ++ b) = all_chars p a && all_chars p b.
Proof.
  induction a as [|x a IH]; simpl; [reflexivity|].
  now rewrite IH, andb_assoc.
Qed.

Lemma span_app p a b :
  all_chars p a = true ->
  match b with String c _ => p c = false | EmptyString => True end ->
  Py.span p (a ++ b) = (a, b).
Proof.
  intros Ha Hb. induction a as [|x a IH]; simpl in *.
  - destruct b as [|c t]; [reflexivity|]. simpl. now rewrite Hb.
  - apply andb_prop in Ha as [Hx Ha]. rewrite Hx, (IH Ha). reflexivity.
Qed.

Lemma span_spec p s :
  let '(a, b) := Py.span p s in
  s = a ++ b /\ all_chars p a = true
  /\ match b with String c _ => p c = false | EmptyString => True end.
Proof.
  induction s as [|c t IH]; simpl; [auto|].
  destruct (p c) eqn:Hc.
  - destruct (Py.span p t) as [a b]. destruct IH as (-> & Ha & Hb).
    simpl. rewrite Hc, Ha. auto.
  - simpl. auto.
Qed.

(** *** [parse_history_entry] *)

(** Destruct the scrutinee of the first [match] in [H] until [H] is
    solved or has no [match] left. *)
Ltac split_matches H :=
  repeat (simpl in H;
          lazymatch type of H with
          | context [match ?x with _ => _ end] =>
              destruct x eqn:?; try discriminate H
          end).

Lemma dot_star_dollar_spec s c :
  dot_star_dollar s = Some c ->
  all_chars Py.not_newline c = true /\ (s = c \/ s = c ++ Py.nl).
Proof.
  unfold dot_star_dollar. pose proof (span_spec Py.not_newline s) as Hs.
  destruct (Py.span Py.not_newline s) as [a b]. destruct Hs as (-> & Ha & _).
  intros H.
  destruct (String.eqb b "") eqn:E1.
  - apply String.eqb_eq in E1. subst. injection H as <-.
    rewrite str_app_nil_r. auto.
  - destruct (String.eqb b Py.nl) eqn:E2; [|discriminate].
    apply String.eqb_eq in E2. subst. injection H as <-. auto.
Qed.

Lemma dot_star_dollar_no_newline c :
  all_chars Py.not_newline c = true -> dot_star_dollar c = Some c.
Proof.
  intros Hc. unfold dot_star_dollar.
  rewrite <- (str_app_nil_r c) at 1. rewrite span_app by (simpl; auto).
  reflexivity.
Qed.

(** What a successful parse looks like: the timestamp is two non-empty
    runs of digits around [:], the command has no newline, and the entry
    is the formatted line, possibly followed by one final newline. *)
Lemma parse_history_entry_spec s ts c :
  parse_history_entry s = Some (ts, c) ->
  exists d1 d2 rest,
    ts = d1 ++ ":" ++ d2 /\ d1 <> "" /\ d2 <> ""
    /\ all_chars Py.is_digit d1 = true /\ all_chars Py.is_digit d2 = true
    /\ all_chars Py.not_newline c = true
    /\ (rest = "" \/ rest = Py.nl)
    /\ s = format_entry ts c ++ rest.
Proof.
  intros H. unfold parse_history_entry in H.
  split_matches H.
  injection H as <- <-.
  match goal with
  | E : dot_star_dollar _ = Some _ |- _ =>
      apply dot_star_dollar_spec in E as [Hc Ht]
  end.
  repeat match goal with
  | E : Py.span Py.is_digit ?x = _ |- _ =>
      let Hsp := fresh "Hsp" in
      pose proof (span_spec Py.is_digit x) as Hsp; rewrite E in Hsp;
      destruct Hsp as (? & ? & _); clear E
  end.
  subst.
  match goal with
  | H1 : all_chars Py.is_digit (String ?x1 ?y1) = true,
    H2 : all_chars Py.is_digit (String ?x2 ?y2) = true |- _ =>
      exists (String x2 y2), (String x1 y1)
  end.
  destruct Ht as [-> | ->]; [exists "" | exists Py.nl].
  all: split; [str_norm; reflexivity|].
  all: split; [discriminate|]; split; [discriminate|].
  all: do 3 (split; [assumption|]).
  all: split; [auto|].
  all: unfold format_entry; str_norm; reflexivity.
Qed.

(** A formatted line without final newline parses back to its parts. *)
Lemma parse_format_entry d1 d2 c :
  d1 <> "" -> d2 <> "" ->
  all_chars Py.is_digit d1 = true -> all_chars Py.is_digit d2 = true ->
  all_chars Py.not_newline c = true ->
  parse_history_entry (format_entry (d1 ++ ":" ++ d2) c)
  = Some (d1 ++ ":" ++ d2, c).
Proof.
  intros Hd1 Hd2 Hdig1 Hdig2 Hc.
  unfold parse_history_entry, format_entry. str_norm.
  rewrite span_app by (simpl; auto).
  destruct d1 as [|x1 d1]; [congruence|]. simpl.
  rewrite span_app by (simpl; auto).
  destruct d2 as [|x2 d2]; [congruence|]. simpl.
  rewrite dot_star_dollar_no_newline by exact Hc. reflexivity.
Qed.

(** A newline that is not the last character makes an entry malformed:
    with no [re.DOTALL] the pattern cannot reach past it. *)
Lemma parse_rejects_inner_newline a x b :
  parse_history_entry (a ++ Py.nl ++ String x b) = None.
Proof.
  destruct (parse_history_entry (a ++ Py.nl ++ String x b)) as [[ts c]|] eqn:E;
    [exfalso|reflexivity].
  apply parse_history_entry_spec in E
    as (d1 & d2 & rest & -> & _ & _ & Hdig1 & Hdig2 & Hc & Hrest & Heq).
  assert (Hp : all_chars Py.not_newline (format_entry (d1 ++ ":" ++ d2) c) = true).
  { unfold format_entry. rewrite !all_chars_app, Hc. simpl.
    assert (Hd : forall d, all_chars Py.is_digit d = true ->
                           all_chars Py.not_newline d = true).
    { induction d as [|y d IH]; simpl; [auto|].
      intros Hy. apply andb_prop in Hy as [Hy1 Hy2].
      rewrite (IH Hy2), andb_true_r.
      unfold Py.is_digit in Hy1. unfold Py.not_newline, Py.is_newline.
      destruct (Ascii.eqb_spec y "010"%char); [subst; discriminate|reflexivity]. }
    now rewrite (Hd d1 Hdig1), (Hd d2 Hdig2). }
  unfold Py.nl in Hrest.
  revert Hp Heq. generalize (format_entry (d1 ++ ":" ++ d2) c) as p.
  induction a as [|y a IH]; intros p Hp Heq; unfold Py.nl in Heq.
  - destruct p as [|z p]; simpl in Heq.
    + destruct Hrest as [-> | ->]; discriminate.
    + injection Heq as Hz _. subst z. simpl in Hp. discriminate Hp.
  - destruct p as [|z p]; simpl in Heq.
    + destruct Hrest as [-> | ->]; [discriminate|].
      injection Heq as _ Ha. destruct a; discriminate.
    + injection Heq as Hz Heq. subst z. simpl in Hp.
      apply andb_prop in Hp as [_ Hp]. exact (IH p Hp Heq).
Qed.

(** ** C1 *)

(** C1 (the code does not do what the claim says): the spec's
    continuation example.  [process_history] does join the two physical
    lines into one entry with an embedded newline, but
    [parse_history_entry] rejects that entry, because "(.*)$" cannot
    cross the newline; the entry is counted in [malformed_removed] and no
    entry is kept or checked by the decision logic. *)
Theorem continuation_entry_is_malformed :
  readlines continuation_history
    = [": 5:0;echo " ++ String "\" Py.nl; ": not-a-new-entry" ++ Py.nl]
  /\ parse_history_entry (": 5:0;echo " ++ String "\" Py.nl ++ ": not-a-new-entry")
    = None
  /\ (let '(ok, s) := run_cleaner [] [] 500 continuation_history in
      ok = true /\ stats s malformed_removed = 1
      /\ stats s valid_entries = 0 /\ cleaned_entries s = []).
Proof. vm_compute. repeat split; reflexivity. Qed.

(** ** C9 *)

(** C9: round trip.  For every entry the parser accepts (kept entries are
    among them), re-parsing the output line
    [": " + timestamp_part + ";" + command] gives back the same timestamp
    and the same, verbatim, command. *)
Theorem format_entry_roundtrip entry ts c :
  parse_history_entry entry = Some (ts, c) ->
  parse_history_entry (format_entry ts c) = Some (ts, c).
Proof.
  intros H.
  apply parse_history_entry_spec in H
    as (d1 & d2 & rest & -> & Hd1 & Hd2 & Hdig1 & Hdig2 & Hc & _ & _).
  now apply parse_format_entry.
Qed.

Lemma format_entry_roundtrip_witness :
  parse_history_entry ": 5:0;echo hi" = Some ("5:0", "echo hi")
  /\ parse_history_entry (format_entry "5:0" "echo hi") = Some ("5:0", "echo hi").
Proof.
  split; [reflexivity|].
  apply (format_entry_roundtrip ": 5:0;echo hi"). reflexivity.
Defined.

(** ** Rules *)

Lemma known_match_type_false m :
  known_match_type m = false ->
  String.eqb m "exact" = false /\ String.eqb m "contains" = false
  /\ String.eqb m "starts_with" = false /\ String.eqb m "ends_with" = false
  /\ String.eqb m "regex" = false.
Proof.
  unfold known_match_type. simpl. rewrite !orb_false_iff. tauto.
Qed.

(** [matches] raises on a well-formed rule never. *)
Lemma well_formed_matches r c :
  well_formed_rule r = true -> exists b, matches r c = inr b.
Proof.
  unfold well_formed_rule, known_match_type, matches. simpl.
  destruct (String.eqb (match_type r) "exact"); [eauto|].
  destruct (String.eqb (match_type r) "contains"); [eauto|].
  destruct (String.eqb (match_type r) "starts_with"); [eauto|].
  destruct (String.eqb (match_type r) "ends_with"); [eauto|].
  destruct (String.eqb (match_type r) "regex"); [|discriminate].
  destruct (compiled_regex r); [eauto|discriminate].
Qed.

(** The rule loop finds a matching rule when no rule before it raises. *)
Lemma check_rules_exists rules c :
  Forall (fun r => well_formed_rule r = true) rules ->
  Exists (fun r => matches r c = inr true) rules ->
  check_rules rules c = inr true.
Proof.
  induction 1 as [|r rs Hr Hrs IH]; intros Hex; [inversion Hex|].
  simpl. destruct (well_formed_matches r c Hr) as [[|] Hm]; rewrite Hm;
    [reflexivity|].
  apply IH. inversion Hex as [? ? Hm'|? ? Hex']; subst; [congruence|exact Hex'].
Qed.

Lemma check_rules_none rules c :
  Forall (fun r => matches r c = inr false) rules ->
  check_rules rules c = inr false.
Proof.
  induction 1 as [|r rs Hr Hrs IH]; simpl; [reflexivity|].
  now rewrite Hr.
Qed.

(** Run the monadic code: unfold the monad and its primitives. *)
Ltac mrun :=
  cbv [mbind M_bind bind lift incr modify get ret assign add_seen append_entry
       try_except].

Ltac mrun_in H :=
  cbv [mbind M_bind bind lift incr modify get ret assign add_seen append_entry
       try_except] in H.

Section Decisions.

Variables (ignore_rules allow_rules : list FilterRule) (max_command_length : nat).

Local Abbreviation process_entry :=
  (_process_entry ignore_rules allow_rules max_command_length).

(** ** C2 *)

(** C2: force-remove precedence.  When the command of a parsed entry is
    matched by an allow (force-remove) rule and by an ignore (force-keep)
    rule, [_process_entry] counts the entry as valid and in
    [allowed_removed] and does nothing else: it is not appended to the
    output and [ignored_kept] is not touched.  (The allow rules are
    well formed, so that none of them raises before the matching one.) *)
Theorem allow_rule_precedence entry ts c :
  parse_history_entry entry = Some (ts, c) ->
  Forall (fun r => well_formed_rule r = true) allow_rules ->
  Exists (fun r => matches r c = inr true) allow_rules ->
  Exists (fun r => matches r c = inr true) ignore_rules ->
  forall s, process_entry entry s
            = (incr valid_entries ;; incr allowed_removed) s.
Proof.
  intros Hp Hwf Hallow _ s.
  unfold _process_entry. rewrite Hp. mrun.
  unfold check_allow_rules. rewrite (check_rules_exists _ _ Hwf Hallow).
  reflexivity.
Qed.

(** ** C6 *)

(** C6: force-keep bypass.  When no allow rule matches the command and an
    ignore rule does, the entry is counted in [ignored_kept], its
    normalized command is added to [seen_commands] and its output line is
    appended, whatever [max_command_length], the noise patterns and the
    set of seen commands are. *)
Theorem ignore_rule_bypass entry ts c :
  parse_history_entry entry = Some (ts, c) ->
  Forall (fun r => matches r c = inr false) allow_rules ->
  Forall (fun r => well_formed_rule r = true) ignore_rules ->
  Exists (fun r => matches r c = inr true) ignore_rules ->
  forall s, process_entry entry s
            = (incr valid_entries ;; incr ignored_kept ;;
               add_seen (normalize_command c) ;;
               append_entry (format_entry ts c)) s.
Proof.
  intros Hp Hallow Hwf Hign s.
  unfold _process_entry. rewrite Hp. mrun.
  unfold check_allow_rules, check_ignore_rules.
  rewrite (check_rules_none _ _ Hallow), (check_rules_exists _ _ Hwf Hign).
  reflexivity.
Qed.

(** ** C3 *)

(** C3, as the code has it: a command that is empty after [strip()] is not
    tested for emptiness first.  The allow rules, then the ignore rules,
    are tried on the untrimmed command; a matching allow rule drops it in
    [allowed_removed], a matching ignore rule keeps it; otherwise
    [is_command_worth_keeping] answers [(False, "empty")] and it is
    counted in [pattern_removed]. *)
Theorem empty_command_decision entry ts c a i :
  parse_history_entry entry = Some (ts, c) ->
  Py.strip c = "" ->
  check_rules allow_rules c = inr a ->
  check_rules ignore_rules c = inr i ->
  forall s, process_entry entry s
            = (incr valid_entries ;;
               if a then incr allowed_removed
               else if i then
                 incr ignored_kept ;; add_seen (normalize_command c) ;;
                 append_entry (format_entry ts c)
               else incr pattern_removed) s.
Proof.
  intros Hp Hstrip Ha Hi s.
  unfold _process_entry. rewrite Hp. mrun.
  unfold check_allow_rules, check_ignore_rules. rewrite Ha.
  destruct a; [reflexivity|]. rewrite Hi.
  destruct i; [reflexivity|].
  unfold is_command_worth_keeping. rewrite Hstrip. reflexivity.
Qed.

End Decisions.

Lemma allow_rule_precedence_witness :
  _process_entry [git_commit_rule] [failed_commit_rule] 500
    ": 5:0;git commit -m 'error: failed to commit transaction'" init_cleaner
  = (incr valid_entries ;; incr allowed_removed) init_cleaner.
Proof.
  apply (allow_rule_precedence [git_commit_rule] [failed_commit_rule] 500
           _ "5:0" "git commit -m 'error: failed to commit transaction'").
  - reflexivity.
  - repeat constructor.
  - apply Exists_cons_hd. reflexivity.
  - apply Exists_cons_hd. reflexivity.
Defined.

(** The spec's example: [: 5:0;git commit -m x] with the ignore rule
    [starts_with "git commit"] and [max_length] 1. *)
Lemma ignore_rule_bypass_witness :
  _process_entry [git_commit_rule] [] 1 ": 5:0;git commit -m x" init_cleaner
  = (incr valid_entries ;; incr ignored_kept ;;
     add_seen (normalize_command "git commit -m x") ;;
     append_entry (format_entry "5:0" "git commit -m x")) init_cleaner.
Proof.
  apply (ignore_rule_bypass [git_commit_rule] [] 1 _ "5:0" "git commit -m x").
  - reflexivity.
  - constructor.
  - repeat constructor.
  - apply Exists_cons_hd. reflexivity.
Defined.

Lemma empty_command_decision_witness :
  _process_entry [] [blank_rule] 500 ": 5:0;   " init_cleaner
  = (incr valid_entries ;; incr allowed_removed) init_cleaner.
Proof.
  exact (empty_command_decision [] [blank_rule] 500 ": 5:0;   " "5:0" "   " true false
           eq_refl eq_refl eq_refl eq_refl init_cleaner).
Defined.

(** C3 fails: an entry whose command is blank is decided by the rules
    before any emptiness test.  With the default allow rule "^\s*$" it is
    an allow-rule removal, and with an ignore rule that matches it, it is
    kept. *)
Lemma empty_command_counterexample :
  (let '(ok, s) := run_cleaner [] [blank_rule] 500 (": 5:0;   " ++ Py.nl) in
   ok = true /\ stats s allowed_removed = 1 /\ stats s pattern_removed = 0)
  /\ (let '(ok, s) := run_cleaner [empty_contains_rule] [] 500 (": 5:0;" ++ Py.nl) in
      ok = true /\ stats s ignored_kept = 1 /\ cleaned_entries s = [": 5:0;"]).
Proof. vm_compute. repeat split; reflexivity. Qed.

(** ** C4 *)

(** C4 (the code does not do what the claim says): [_process_entry] tries
    the rules on the untrimmed command.  [: 6:0; git commit -m x] (a
    space after [;]) is not seen by the ignore rule [starts_with
    "git commit"] there; [is_command_worth_keeping] then matches the
    trimmed command and answers [(True, "ignore_rule_match")], which the
    caller treats as an ordinary keep: the entry is not counted in
    [ignored_kept] and goes through the duplicate check, where it is
    dropped after an earlier [git commit -m x]. *)
Theorem trimmed_ignore_match_not_kept :
  (let '(ok, s) := run_cleaner [git_commit_rule] [] 500
                     (": 6:0; git commit -m x" ++ Py.nl) in
   ok = true /\ stats s ignored_kept = 0 /\ stats s final_entries = 1)
  /\ (let '(ok, s) := run_cleaner [git_commit_rule] [] 500
                        (": 5:0;git commit -m x" ++ Py.nl
                         ++ ": 6:0; git commit -m x" ++ Py.nl) in
      ok = true /\ stats s ignored_kept = 1
      /\ stats s duplicates_removed = 1
      /\ cleaned_entries s = [": 5:0;git commit -m x"]).
Proof. vm_compute. repeat split; reflexivity. Qed.

(** ** C5 *)

(** C5 fails: a rule with an unknown match type is constructed, and its
    [matches] raises at call time. *)
Lemma unknown_match_type_counterexample :
  FilterRule_init no_regex "ls" "fuzzy" false
    = inr (mkFilterRule "ls" "fuzzy" false None)
  /\ matches (mkFilterRule "ls" "fuzzy" false None) "ls"
    = inl "Unknown match type: fuzzy".
Proof. split; reflexivity. Qed.

(** C5, as the code has it: [FilterRule.__init__] rejects only a regex rule
    whose pattern does not compile, with a message naming the pattern; a
    regex rule whose pattern compiles, and a rule with any other match
    type, known or not, is built with the match type lower-cased; when
    that type is none of the five known ones, every call of [matches]
    raises [Unknown match type]; a built rule with a known type never
    raises in [matches]. *)
Theorem filter_rule_construction re_compile pattern match_type cs :
  (Py.lower match_type = "regex" ->
   forall e, re_compile pattern (negb cs) = inl e ->
   FilterRule_init re_compile pattern match_type cs
   = inl ("Invalid regex pattern '" ++ pattern ++ "': " ++ e))
  /\ (Py.lower match_type = "regex" ->
      forall search, re_compile pattern (negb cs) = inr search ->
      FilterRule_init re_compile pattern match_type cs
      = inr (mkFilterRule pattern (Py.lower match_type) cs (Some search)))
  /\ (Py.lower match_type <> "regex" ->
      FilterRule_init re_compile pattern match_type cs
      = inr (mkFilterRule pattern (Py.lower match_type) cs None))
  /\ (known_match_type (Py.lower match_type) = false ->
      FilterRule_init re_compile pattern match_type cs
      = inr (mkFilterRule pattern (Py.lower match_type) cs None)
      /\ forall command,
         matches (mkFilterRule pattern (Py.lower match_type) cs None) command
         = inl ("Unknown match type: " ++ Py.lower match_type))
  /\ (forall r, FilterRule_init re_compile pattern match_type cs = inr r ->
      known_match_type (Py.lower match_type) = true ->
      forall command, exists b, matches r command = inr b).
Proof.
  unfold FilterRule_init. split; [|split; [|split; [|split]]].
  - intros -> e He. simpl. now rewrite He.
  - intros Hr search Hs. rewrite Hr. simpl. now rewrite Hs.
  - intros Hr. apply String.eqb_neq in Hr. now rewrite Hr.
  - intros Hk. destruct (known_match_type_false _ Hk) as (H1 & H2 & H3 & H4 & H5).
    rewrite H5. split; [reflexivity|].
    intros command. unfold matches. simpl.
    now rewrite H1, H2, H3, H4, H5.
  - intros r Hr Hk command. apply well_formed_matches.
    destruct (String.eqb (Py.lower match_type) "regex") eqn:E.
    + destruct (re_compile pattern (negb cs)); [discriminate|].
      injection Hr as <-. unfold well_formed_rule. simpl.
      now rewrite Hk, E.
    + injection Hr as <-. unfold well_formed_rule. simpl.
      now rewrite Hk, E.
Qed.

Lemma filter_rule_construction_witness :
  FilterRule_init no_regex "ls" "Fuzzy" false
    = inr (mkFilterRule "ls" "fuzzy" false None)
  /\ matches (mkFilterRule "ls" "fuzzy" false None) "ls"
     = inl "Unknown match type: fuzzy".
Proof.
  destruct (filter_rule_construction no_regex "ls" "Fuzzy" false)
    as (_ & _ & _ & H & _).
  destruct (H eq_refl) as [H1 H2]. split; [exact H1 | exact (H2 "ls")].
Defined.

(** ** The monad and the state *)

Lemma bind_inr {A B} (m : M A) (k : A -> M B) s x s' :
  bind m k s = (inr x, s') ->
  exists a s1, m s = (inr a, s1) /\ k a s1 = (inr x, s').
Proof.
  unfold bind. destruct (m s) as [[e|a] s1]; [discriminate|eauto].
Qed.

Lemma mbind_inr {A B} (m : M A) (k : A -> M B) s x s' :
  (m ≫= k) s = (inr x, s') ->
  exists a s1, m s = (inr a, s1) /\ k a s1 = (inr x, s').
Proof. apply bind_inr. Qed.

Lemma set_stat_same k v st : set_stat k v st k = v.
Proof. unfold set_stat. now destruct (decide (k = k)). Qed.

Lemma set_stat_other k k' v st : k <> k' -> set_stat k v st k' = st k'.
Proof. unfold set_stat. now destruct (decide (k = k')). Qed.

Ltac simpl_stats :=
  repeat first [ rewrite set_stat_same
               | rewrite set_stat_other by discriminate ].

(** ** C10 *)

Section Accounting.

Variables (ignore_rules allow_rules : list FilterRule) (max_command_length : nat).

Local Abbreviation process_entry :=
  (_process_entry ignore_rules allow_rules max_command_length).

Lemma process_entry_balanced entry s s' :
  process_entry entry s = (inr tt, s') ->
  stats_balanced s -> stats_balanced s'.
Proof.
  intros H Hb. unfold _process_entry in H. mrun_in H.
  split_matches H.
  all: injection H as <-; unfold stats_balanced in *; simpl;
       simpl_stats; rewrite ?length_app; simpl; lia.
Qed.

Lemma process_lines_balanced lines cur s c s' :
  process_lines ignore_rules allow_rules max_command_length lines cur s
  = (inr c, s') ->
  stats_balanced s -> stats_balanced s'.
Proof.
  revert cur s.
  induction lines as [|raw rest IH]; intros cur s H Hb; simpl in H.
  - injection H as _ <-. exact Hb.
  - destruct (starts_entry (Py.rstrip_nl raw)).
    + apply mbind_inr in H as ([] & s1 & H1 & H2).
      apply (IH _ _ H2).
      destruct (is_nonempty cur).
      * exact (process_entry_balanced _ _ _ H1 Hb).
      * injection H1 as <-. exact Hb.
    + destruct (is_nonempty cur); [exact (IH _ _ H Hb)|].
      apply mbind_inr in H as ([] & s1 & H1 & H2).
      apply (IH _ _ H2).
      injection H1 as <-. unfold stats_balanced in *. simpl.
      simpl_stats. exact Hb.
Qed.

End Accounting.

Lemma init_balanced : stats_balanced init_cleaner.
Proof. reflexivity. Qed.

(** C10: statistics accounting.  When [process_history] completes (returns
    [True]; on an exception it returns [False] and the statistics are not
    reported), every valid entry is counted by exactly one of the four
    removal counters [allowed_removed], [too_long_removed],
    [pattern_removed] and [duplicates_removed] or is in the output:
    [valid_entries] is their sum plus [final_entries], so that
    [final_entries] equals [valid_entries] minus the four counters, as
    integers (the subtraction never goes below zero);
    [malformed_removed] does not enter the equation. *)
Theorem final_entries_accounting ignore_rules allow_rules max_command_length
    lines s :
  process_history ignore_rules allow_rules max_command_length lines
    init_cleaner = (inr true, s) ->
  stats s valid_entries
  = stats s allowed_removed + stats s too_long_removed
    + stats s pattern_removed + stats s duplicates_removed
    + stats s final_entries
  /\ stats s final_entries
  = stats s valid_entries - stats s allowed_removed
    - stats s too_long_removed - stats s pattern_removed
    - stats s duplicates_removed.
Proof.
  unfold process_history, try_except. intros H.
  match type of H with
  | context [match ?body init_cleaner with _ => _ end] =>
      destruct (body init_cleaner) as [[e|b] s1] eqn:E
  end; [discriminate|].
  injection H as -> <-.
  apply mbind_inr in E as ([] & s2 & E1 & E2).
  apply bind_inr in E2 as (cur & s3 & E3 & E4).
  apply mbind_inr in E4 as ([] & s4 & E5 & E6).
  apply bind_inr in E6 as (s5 & s6 & E7 & E8).
  apply mbind_inr in E8 as ([] & s7 & E9 & E10).
  injection E1 as <-. injection E7 as <- <-. injection E9 as <-.
  injection E10 as <-.
  assert (Hb2 : stats_balanced
                  (mkCleaner (set_stat total_lines (length lines)
                                (stats init_cleaner))
                             (seen_commands init_cleaner)
                             (cleaned_entries init_cleaner)))
    by reflexivity.
  pose proof (process_lines_balanced _ _ _ _ _ _ _ _ E3 Hb2) as Hb3.
  assert (Hb4 : stats_balanced s4).
  { destruct (is_nonempty cur).
    - exact (process_entry_balanced _ _ _ _ _ _ E5 Hb3).
    - injection E5 as <-. exact Hb3. }
  unfold stats_balanced in Hb4. simpl. simpl_stats. split; lia.
Qed.

Lemma final_entries_accounting_witness :
  let s := snd (process_history [] [] 500 (readlines duplicate_history)
                  init_cleaner) in
  stats s valid_entries
  = stats s allowed_removed + stats s too_long_removed
    + stats s pattern_removed + stats s duplicates_removed
    + stats s final_entries
  /\ stats s final_entries
  = stats s valid_entries - stats s allowed_removed
    - stats s too_long_removed - stats s pattern_removed
    - stats s duplicates_removed.
Proof.
  intros s. apply (final_entries_accounting [] [] 500
                     (readlines duplicate_history)).
  vm_compute. reflexivity.
Defined.

(** ** C7 *)

Section Dedup.

Variables (ignore_rules allow_rules : list FilterRule) (max_command_length : nat).

Local Abbreviation process_entry :=
  (_process_entry ignore_rules allow_rules max_command_length).
Local Abbreviation step :=
  (pipeline_step ignore_rules allow_rules max_command_length).

Lemma process_entry_seen_mono entry s s' :
  process_entry entry s = (inr tt, s') ->
  seen_commands s ⊆ seen_commands s'.
Proof.
  intros H. unfold _process_entry in H. mrun_in H.
  split_matches H.
  all: injection H as <-; simpl; set_solver.
Qed.

Lemma steps_seen_mono s s' :
  rtc step s s' -> seen_commands s ⊆ seen_commands s'.
Proof.
  induction 1 as [s|s s1 s' Hst _ IH]; [set_solver|].
  etransitivity; [|exact IH].
  destruct Hst as [entry ? ? He|? ? Ho].
  - exact (process_entry_seen_mono _ _ _ He).
  - injection Ho as <-. simpl. set_solver.
Qed.

(** The loop of [process_history] only takes steps of [pipeline_step]. *)
Lemma process_lines_steps lines cur s c s' :
  process_lines ignore_rules allow_rules max_command_length lines cur s
  = (inr c, s') ->
  rtc step s s'.
Proof.
  revert cur s.
  induction lines as [|raw rest IH]; intros cur s H; simpl in H.
  - injection H as _ <-. apply rtc_refl.
  - destruct (starts_entry (Py.rstrip_nl raw)).
    + apply mbind_inr in H as ([] & s1 & H1 & H2).
      destruct (is_nonempty cur).
      * eapply rtc_l; [eapply step_entry; exact H1|]. exact (IH _ _ H2).
      * injection H1 as <-. exact (IH _ _ H2).
    + destruct (is_nonempty cur); [exact (IH _ _ H)|].
      apply mbind_inr in H as ([] & s1 & H1 & H2).
      eapply rtc_l; [eapply step_orphan; exact H1|]. exact (IH _ _ H2).
Qed.

(** A kept entry leaves its normalized command in [seen_commands]. *)
Lemma kept_entry_seen entry ts c s s' :
  parse_history_entry entry = Some (ts, c) ->
  process_entry entry s = (inr tt, s') ->
  cleaned_entries s' = (cleaned_entries s ++ [format_entry ts c])%list ->
  normalize_command c ∈ seen_commands s'.
Proof.
  intros Hp H Hk. unfold _process_entry in H. rewrite Hp in H. mrun_in H.
  split_matches H.
  all: injection H as <-; simpl in *.
  all: first [ set_solver
             | exfalso; apply (f_equal length) in Hk;
               rewrite length_app in Hk; simpl in Hk; lia ].
Qed.

(** C7: duplicates.  Let [e1] be kept by a call of [_process_entry] (as an
    ignore-rule keep or a plain keep), and let the run go on with any
    steps; a later entry [e2] with the same normalized command, matched
    by no allow or ignore rule (untrimmed or trimmed), non-empty, within
    [max_command_length] and free of noise patterns, is counted as valid
    and in [duplicates_removed], and is not appended to the output. *)
Theorem later_duplicate_dropped e1 ts1 c1 e2 ts2 c2 s0 s1 s2 :
  parse_history_entry e1 = Some (ts1, c1) ->
  process_entry e1 s0 = (inr tt, s1) ->
  cleaned_entries s1 = (cleaned_entries s0 ++ [format_entry ts1 c1])%list ->
  rtc step s1 s2 ->
  parse_history_entry e2 = Some (ts2, c2) ->
  normalize_command c2 = normalize_command c1 ->
  matches_no_rule allow_rules c2 -> matches_no_rule ignore_rules c2 ->
  matches_no_rule allow_rules (Py.strip c2) ->
  matches_no_rule ignore_rules (Py.strip c2) ->
  Py.strip c2 <> "" ->
  String.length (Py.strip c2) <= max_command_length ->
  existsb (fun search => search (Py.strip c2)) Noise.repetitive_patterns
    = false ->
  process_entry e2 s2 = (incr valid_entries ;; incr duplicates_removed) s2.
Proof.
  intros Hp1 H1 Hk Hsteps Hp2 Hnorm Ha Hi Has His Hne Hlen Hnoise.
  assert (Hseen : normalize_command c2 ∈ seen_commands s2).
  { rewrite Hnorm. apply (steps_seen_mono _ _ Hsteps).
    exact (kept_entry_seen _ _ _ _ _ Hp1 H1 Hk). }
  unfold _process_entry. rewrite Hp2. mrun.
  unfold check_allow_rules, check_ignore_rules.
  rewrite (check_rules_none _ _ Ha), (check_rules_none _ _ Hi).
  assert (Hkeep : is_command_worth_keeping ignore_rules allow_rules
                    max_command_length c2 = inr (true, "")).
  { unfold is_command_worth_keeping, check_allow_rules, check_ignore_rules.
    destruct (is_nonempty (Py.strip c2)) eqn:E.
    2:{ unfold is_nonempty in E. apply negb_false_iff, String.eqb_eq in E.
        contradiction. }
    rewrite (check_rules_none _ _ Has), (check_rules_none _ _ His).
    destruct (Nat.ltb_spec max_command_length (String.length (Py.strip c2)));
      [lia|].
    rewrite Hnoise. reflexivity. }
  rewrite Hkeep. simpl.
  destruct (decide _) as [_|Hn]; [reflexivity|].
  exfalso. exact (Hn Hseen).
Qed.

End Dedup.

Lemma later_duplicate_dropped_witness :
  let s1 := snd (_process_entry [] [] 500 ": 111:0;echo hi" init_cleaner) in
  _process_entry [] [] 500 ": 111:0;echo hi" s1
  = (incr valid_entries ;; incr duplicates_removed) s1.
Proof.
  intros s1.
  apply (later_duplicate_dropped [] [] 500 ": 111:0;echo hi" "111:0" "echo hi"
           ": 111:0;echo hi" "111:0" "echo hi" init_cleaner s1 s1).
  all: try reflexivity.
  all: try (vm_compute; reflexivity).
  all: try apply rtc_refl.
  all: try apply Forall_nil.
  all: try exact I.
  - vm_compute. discriminate.
  - vm_compute. lia.
Defined.

(** ** C8 *)

(** *** Reading and writing the history file *)

Lemma translate_newlines_cons a t :
  translate_newlines (String a t)
  = if Ascii.eqb a "013"%char then
      String "010" (match t with
                    | String b t' => if Ascii.eqb b "010"%char
                                     then translate_newlines t'
                                     else translate_newlines t
                    | EmptyString => EmptyString
                    end)
    else String a (translate_newlines t).
Proof.
  destruct (Ascii.eqb_spec a "013"%char) as [->|Ha].
  - destruct t as [|b t']; [reflexivity|].
    destruct (Ascii.eqb_spec b "010"%char) as [->|Hb]; [reflexivity|].
    destruct b as [[] [] [] [] [] [] [] []]; try reflexivity; congruence.
  - destruct a as [[] [] [] [] [] [] [] []]; try reflexivity; congruence.
Qed.

Lemma translate_newlines_no_cr s :
  all_chars not_cr (translate_newlines s) = true.
Proof.
  enough (H : all_chars not_cr (translate_newlines s) = true
              /\ forall a, all_chars not_cr (translate_newlines (String a s))
                           = true) by apply H.
  induction s as [|b s [IH1 IH2]].
  - split; [reflexivity|]. intros a. rewrite translate_newlines_cons.
    unfold not_cr. destruct (Ascii.eqb_spec a "013"%char) as [->|Ha];
      [reflexivity|].
    simpl. apply Ascii.eqb_neq in Ha. now rewrite Ha.
  - split; [exact (IH2 b)|]. intros a. rewrite translate_newlines_cons.
    destruct (Ascii.eqb_spec a "013"%char) as [->|Ha].
    + destruct (Ascii.eqb b "010"%char); simpl; [exact IH1|exact (IH2 b)].
    + simpl. unfold not_cr at 1. apply Ascii.eqb_neq in Ha. rewrite Ha.
      exact (IH2 b).
Qed.

Lemma translate_newlines_id s :
  all_chars not_cr s = true -> translate_newlines s = s.
Proof.
  induction s as [|a s IH]; [reflexivity|]. cbn [all_chars]. intros H.
  apply andb_prop in H as [Ha Hs]. rewrite translate_newlines_cons.
  unfold not_cr in Ha. apply negb_true_iff in Ha. rewrite Ha, (IH Hs).
  reflexivity.
Qed.

Lemma split_lines_no_cr acc s :
  all_chars not_cr acc = true -> all_chars not_cr s = true ->
  Forall (fun l => all_chars not_cr l = true) (split_lines acc s).
Proof.
  revert acc. induction s as [|a s IH]; intros acc Hacc Hs; simpl.
  - destruct (is_nonempty acc); auto.
  - simpl in Hs. apply andb_prop in Hs as [Ha Hs].
    destruct (Py.is_newline a).
    + constructor; [|apply IH; auto].
      rewrite all_chars_app, Hacc. reflexivity.
    + apply IH; [|exact Hs]. rewrite all_chars_app, Hacc. simpl.
      now rewrite Ha.
Qed.

Lemma readlines_no_cr content :
  Forall (fun l => all_chars not_cr l = true) (readlines content).
Proof.
  apply split_lines_no_cr; [reflexivity|apply translate_newlines_no_cr].
Qed.

Lemma all_chars_rstrip p q s :
  all_chars p s = true -> all_chars p (Py.rstrip_by q s) = true.
Proof.
  induction s as [|a s IH]; simpl; [auto|]. intros H.
  apply andb_prop in H as [Ha Hs].
  destruct (q a && String.eqb (Py.rstrip_by q s) ""); simpl; [reflexivity|].
  now rewrite Ha, (IH Hs).
Qed.

Lemma split_lines_line acc e rest :
  all_chars Py.not_newline e = true ->
  split_lines acc (e ++ Py.nl ++ rest)
  = (acc ++ e ++ Py.nl) :: split_lines "" rest.
Proof.
  revert acc. induction e as [|a e IH]; intros acc He; simpl.
  - reflexivity.
  - simpl in He. apply andb_prop in He as [Ha He].
    unfold Py.not_newline in Ha. apply negb_true_iff in Ha. rewrite Ha.
    rewrite (IH _ He). now rewrite str_app_assoc.
Qed.

Lemma concat_empty_cons x xs :
  String.concat "" (x :: xs) = x ++ String.concat "" xs.
Proof. destruct xs; simpl; [now rewrite str_app_nil_r|reflexivity]. Qed.

Lemma readlines_written es :
  Forall (fun e => all_chars Py.not_newline e = true
                   /\ all_chars not_cr e = true) es ->
  readlines (written_history es) = map (fun e => e ++ Py.nl) es.
Proof.
  intros Hes. unfold readlines, written_history.
  rewrite translate_newlines_id.
  - induction Hes as [|e es [He _] _ IH]; [reflexivity|].
    simpl map. rewrite concat_empty_cons, str_app_assoc.
    rewrite split_lines_line by exact He. now rewrite IH.
  - induction Hes as [|e es [_ He] _ IH]; [reflexivity|].
    simpl map. rewrite concat_empty_cons, !all_chars_app, He, IH.
    reflexivity.
Qed.

(** *** The output lines *)

Lemma all_chars_impl (p q : ascii -> bool) s :
  (forall x, p x = true -> q x = true) ->
  all_chars p s = true -> all_chars q s = true.
Proof.
  intros Hpq. induction s as [|a s IH]; simpl; [auto|].
  intros H. apply andb_prop in H as [Ha Hs]. now rewrite (Hpq _ Ha), (IH Hs).
Qed.

Lemma digit_not_newline x : Py.is_digit x = true -> Py.not_newline x = true.
Proof.
  intros H. unfold Py.not_newline, Py.is_newline.
  destruct (Ascii.eqb_spec x "010"%char) as [->|]; [discriminate H|reflexivity].
Qed.

Lemma digit_not_cr x : Py.is_digit x = true -> not_cr x = true.
Proof.
  intros H. unfold not_cr.
  destruct (Ascii.eqb_spec x "013"%char) as [->|]; [discriminate H|reflexivity].
Qed.

Lemma format_entry_chars ts c :
  timestamp_ok ts ->
  all_chars Py.not_newline c = true -> all_chars not_cr c = true ->
  all_chars Py.not_newline (format_entry ts c) = true
  /\ all_chars not_cr (format_entry ts c) = true.
Proof.
  intros (d1 & d2 & -> & _ & _ & Hd1 & Hd2) Hn Hr.
  unfold format_entry. rewrite !all_chars_app, Hn, Hr.
  rewrite (all_chars_impl _ _ _ digit_not_newline Hd1),
          (all_chars_impl _ _ _ digit_not_newline Hd2),
          (all_chars_impl _ _ _ digit_not_cr Hd1),
          (all_chars_impl _ _ _ digit_not_cr Hd2).
  split; reflexivity.
Qed.

Lemma rstrip_nl_line e :
  all_chars Py.not_newline e = true -> all_chars not_cr e = true ->
  e <> "" -> Py.rstrip_nl (e ++ Py.nl) = e.
Proof.
  unfold Py.rstrip_nl.
  induction e as [|a e IH]; intros Hn Hr Hne; [congruence|].
  cbn [all_chars] in Hn, Hr.
  apply andb_prop in Hn as [Han Hn]. apply andb_prop in Hr as [Har Hr].
  cbn [String.append Py.rstrip_by].
  destruct e as [|b e'].
  - unfold Py.not_newline, Py.is_newline in Han. unfold not_cr in Har.
    apply negb_true_iff in Han, Har. simpl. rewrite Han, Har. reflexivity.
  - rewrite (IH Hn Hr) by discriminate. rewrite andb_false_r.
    reflexivity.
Qed.

Lemma contains_app_r p a b :
  Py.contains p b = true -> Py.contains p (a ++ b) = true.
Proof.
  intros H. induction a as [|x a IH]; simpl; [exact H|].
  rewrite IH. apply orb_true_r.
Qed.

Lemma starts_entry_format ts c : starts_entry (format_entry ts c) = true.
Proof.
  unfold starts_entry, format_entry. rewrite <- (str_app_assoc ": " ts).
  rewrite (contains_app_r ";" (": " ++ ts) (";" ++ c))
    by (destruct c; reflexivity).
  rewrite andb_true_r. destruct ts; [destruct c|]; reflexivity.
Qed.

(** *** The first run *)

Lemma kept_from_snoc ignore_rules allow_rules max_command_length p ks k :
  kept_from ignore_rules allow_rules max_command_length p ks ->
  kept_ok ignore_rules allow_rules max_command_length (p ++ ks) k ->
  kept_from ignore_rules allow_rules max_command_length p (ks ++ [k]).
Proof.
  revert p. induction ks as [|k' ks IH]; intros p Hks Hk; simpl in *.
  - rewrite app_nil_r in Hk. auto.
  - destruct Hks as [Hk' Hks]. split; [exact Hk'|].
    apply IH; [exact Hks|]. now rewrite <- app_assoc.
Qed.

Section FirstPass.

Variables (ignore_rules allow_rules : list FilterRule) (max_command_length : nat).

Local Abbreviation process_entry :=
  (_process_entry ignore_rules allow_rules max_command_length).
Local Abbreviation inv :=
  (first_pass_inv ignore_rules allow_rules max_command_length).

Lemma process_entry_inv entry s s' :
  all_chars not_cr entry = true -> inv s ->
  process_entry entry s = (inr tt, s') -> inv s'.
Proof.
  intros Hcr (ks & Hc & Hk & Hseen) H. unfold _process_entry in H.
  destruct (parse_history_entry entry) as [[ts c]|] eqn:Hp.
  2:{ mrun_in H. injection H as <-. exists ks. simpl. auto. }
  pose proof (parse_history_entry_spec _ _ _ Hp)
    as (d1 & d2 & rest & Hts & Hd1 & Hd2 & Hg1 & Hg2 & Hnl & _ & He).
  assert (Hccr : all_chars not_cr c = true).
  { subst entry. unfold format_entry in Hcr. rewrite !all_chars_app in Hcr.
    apply andb_prop in Hcr as [Hcr _]. repeat apply andb_prop in Hcr as [_ Hcr].
    exact Hcr. }
  assert (Hts_ok : timestamp_ok ts) by (exists d1, d2; auto).
  mrun_in H. split_matches H.
  all: injection H as <-.
  all: try (exists ks; split; [exact Hc|]; split; [exact Hk|]; exact Hseen).
  all: exists (ks ++ [(ts, c)])%list; split;
         [simpl; rewrite Hc; unfold kept_lines; now rewrite map_app|].
  all: split; [apply kept_from_snoc; [exact Hk|]|];
         [|simpl; unfold norms; rewrite map_app, list_to_set_app_L;
           simpl; set_solver].
  all: unfold kept_ok; cbn [fst snd]; do 4 (split; [assumption|]).
  - left. assumption.
  - right. split; [assumption|]. split.
    + match goal with
      | Hw : is_command_worth_keeping _ _ _ c = inr (?b, ?r),
        Hb : negb ?b = false |- _ =>
          apply negb_false_iff in Hb; subst b; exists r; exact Hw
      end.
    + match goal with
      | Hn : normalize_command c ∉ seen_commands s |- _ =>
          intros Hin; apply Hn, Hseen, elem_of_list_to_set; exact Hin
      end.
Qed.

Lemma process_lines_inv lines cur s c s' :
  Forall (fun l => all_chars not_cr l = true) lines ->
  all_chars not_cr cur = true -> inv s ->
  process_lines ignore_rules allow_rules max_command_length lines cur s
  = (inr c, s') ->
  inv s' /\ all_chars not_cr c = true.
Proof.
  revert cur s.
  induction lines as [|raw rest IH]; intros cur s Hl Hcur Hs H; simpl in H.
  - injection H as <- <-. auto.
  - apply Forall_cons in Hl as [Hraw Hl].
    assert (Hline : all_chars not_cr (Py.rstrip_nl raw) = true)
      by (apply all_chars_rstrip; exact Hraw).
    destruct (starts_entry (Py.rstrip_nl raw)).
    + apply mbind_inr in H as ([] & s1 & H1 & H2).
      apply (IH _ s1 Hl Hline); [|exact H2].
      destruct (is_nonempty cur).
      * exact (process_entry_inv _ _ _ Hcur Hs H1).
      * injection H1 as <-. exact Hs.
    + destruct (is_nonempty cur).
      * eapply IH; [exact Hl| |exact Hs|exact H].
        rewrite all_chars_app, Hcur. simpl. now rewrite Hline.
      * apply mbind_inr in H as ([] & s1 & H1 & H2).
        apply (IH _ s1 Hl Hcur); [|exact H2].
        injection H1 as <-. destruct Hs as (ks & Hc & Hk & Hseen).
        exists ks. auto.
Qed.

(** A run that returns [True] leaves an output of kept entries. *)
Lemma process_history_inv lines s :
  Forall (fun l => all_chars not_cr l = true) lines ->
  process_history ignore_rules allow_rules max_command_length lines
    init_cleaner = (inr true, s) ->
  inv s.
Proof.
  unfold process_history, try_except. intros Hl H.
  match type of H with
  | context [match ?body init_cleaner with _ => _ end] =>
      destruct (body init_cleaner) as [[e|b] s1] eqn:E
  end; [discriminate|].
  injection H as -> <-.
  apply mbind_inr in E as ([] & s2 & E1 & E2).
  apply bind_inr in E2 as (cur & s3 & E3 & E4).
  apply mbind_inr in E4 as ([] & s4 & E5 & E6).
  apply bind_inr in E6 as (s5 & s6 & E7 & E8).
  apply mbind_inr in E8 as ([] & s7 & E9 & E10).
  injection E1 as <-. injection E7 as <- <-. injection E9 as <-.
  injection E10 as <-.
  apply process_lines_inv in E3 as [Hs3 Hcur]; [|exact Hl|reflexivity|].
  2:{ exists []. repeat split. simpl. set_solver. }
  assert (Hs4 : inv s4).
  { destruct (is_nonempty cur).
    - exact (process_entry_inv _ _ _ Hcur Hs3 E5).
    - injection E5 as <-. exact Hs3. }
  destruct Hs4 as (ks & Hc & Hk & Hseen). exists ks. auto.
Qed.

End FirstPass.

(** *** The second run *)

Lemma bind_assoc_at {A B C} (m : M A) (f : A -> M B) (g : B -> M C) s :
  bind (bind m f) g s = bind m (fun x => bind (f x) g) s.
Proof. unfold bind. destruct (m s) as [[e|a] s1]; reflexivity. Qed.

Lemma bind_inr_at {A B} (m : M A) (k : A -> M B) s a s1 :
  m s = (inr a, s1) -> bind m k s = k a s1.
Proof. unfold bind. intros ->. reflexivity. Qed.

Lemma bind_inl_at {A B} (m : M A) (k : A -> M B) s e s1 :
  m s = (inl e, s1) -> bind m k s = (inl e, s1).
Proof. unfold bind. intros ->. reflexivity. Qed.

Section SecondPass.

Variables (ignore_rules allow_rules : list FilterRule) (max_command_length : nat).

Local Abbreviation process_entry :=
  (_process_entry ignore_rules allow_rules max_command_length).

Lemma replay_entry pre ts c s :
  kept_ok ignore_rules allow_rules max_command_length pre (ts, c) ->
  seen_commands s ⊆ list_to_set (norms pre) ->
  exists s', process_entry (format_entry ts c) s = (inr tt, s')
    /\ seen_commands s' ⊆ list_to_set (norms (pre ++ [(ts, c)]))
    /\ stats s' duplicates_removed = stats s duplicates_removed
    /\ cleaned_entries s' = (cleaned_entries s ++ [format_entry ts c])%list.
Proof.
  intros (Hts & Hnl & Hcr & Ha & Hi) Hseen. cbn [fst snd] in *.
  destruct Hts as (d1 & d2 & -> & Hd1 & Hd2 & Hg1 & Hg2).
  unfold _process_entry. rewrite parse_format_entry by assumption.
  unfold norms. rewrite map_app, list_to_set_app_L. cbn [map list_to_set snd].
  mrun. rewrite Ha.
  destruct Hi as [Hi | (Hi & (r & Hw) & Hn)]; rewrite Hi.
  - eexists. split; [reflexivity|]. cbn [seen_commands stats cleaned_entries].
    split; [set_solver|]. split; [now simpl_stats|reflexivity].
  - rewrite Hw. cbn [negb].
    destruct (decide _) as [Hin|Hnin].
    + exfalso. apply Hn. apply Hseen, elem_of_list_to_set in Hin. exact Hin.
    + eexists. split; [reflexivity|]. cbn [seen_commands stats cleaned_entries].
      split; [set_solver|]. split; [now simpl_stats|reflexivity].
Qed.

Lemma replay_entries ks pre s :
  kept_from ignore_rules allow_rules max_command_length pre ks ->
  seen_commands s ⊆ list_to_set (norms pre) ->
  exists s',
    process_entries ignore_rules allow_rules max_command_length
      (kept_lines ks) s = (inr tt, s')
    /\ stats s' duplicates_removed = stats s duplicates_removed
    /\ cleaned_entries s' = (cleaned_entries s ++ kept_lines ks)%list.
Proof.
  revert pre s.
  induction ks as [|[ts c] ks IH]; intros pre s Hks Hseen.
  - exists s. simpl. rewrite app_nil_r. auto.
  - destruct Hks as [Hk Hks].
    destruct (replay_entry _ _ _ _ Hk Hseen) as (s1 & E1 & Hs1 & Hd1 & Hc1).
    destruct (IH _ _ Hks Hs1) as (s2 & E2 & Hd2 & Hc2).
    exists s2. cbn [kept_lines map process_entries fst snd].
    mrun. rewrite E1. split; [exact E2|]. split; [congruence|].
    rewrite Hc2, Hc1, <- app_assoc. reflexivity.
Qed.

Lemma process_lines_entries es cur s :
  Forall (fun e => Py.rstrip_nl (e ++ Py.nl) = e /\ starts_entry e = true
                   /\ is_nonempty e = true) es ->
  bind (process_lines ignore_rules allow_rules max_command_length
          (map (fun e => e ++ Py.nl) es) cur)
       (fun c => if is_nonempty c then process_entry c else ret tt) s
  = process_entries ignore_rules allow_rules max_command_length
      ((if is_nonempty cur then [cur] else []) ++ es)%list s.
Proof.
  intros Hes. revert cur s.
  induction Hes as [|e es (Hr & Hs & Hne) _ IH]; intros cur s.
  - cbn [map process_lines app]. unfold bind, ret.
    destruct (is_nonempty cur); cbn [app process_entries]; [|reflexivity].
    mrun. destruct (process_entry cur s) as [[err|[]] s']; reflexivity.
  - cbn [map process_lines]. rewrite Hr, Hs.
    specialize (IH e). rewrite Hne in IH. cbn [app] in IH.
    destruct (is_nonempty cur); cbn [app process_entries];
      unfold mbind, M_bind; rewrite bind_assoc_at.
    + destruct (process_entry cur s) as [[err|[]] s1] eqn:E.
      * rewrite !(bind_inl_at _ _ _ _ _ E). reflexivity.
      * rewrite !(bind_inr_at _ _ _ _ _ E). apply IH.
    + rewrite (bind_inr_at (ret tt) _ s tt s) by reflexivity. apply IH.
Qed.

End SecondPass.

Lemma kept_lines_ok ignore_rules allow_rules max_command_length p ks :
  kept_from ignore_rules allow_rules max_command_length p ks ->
  Forall (fun e => all_chars Py.not_newline e = true
                   /\ all_chars not_cr e = true
                   /\ starts_entry e = true /\ is_nonempty e = true)
    (kept_lines ks).
Proof.
  revert p. induction ks as [|[ts c] ks IH]; intros p Hks; [constructor|].
  destruct Hks as [(Hts & Hn & Hr & _) Hks]. cbn [fst snd] in *.
  constructor; [|exact (IH _ Hks)]. cbn [fst snd].
  destruct (format_entry_chars ts c Hts Hn Hr) as [Hn' Hr'].
  split; [exact Hn'|]. split; [exact Hr'|].
  split; [apply starts_entry_format|reflexivity].
Qed.

(** C8: idempotence.  When a run of the cleaner on a history file returns
    [True], a second run with the same rules and [max_command_length] on
    the file it writes also returns [True], removes no duplicate
    ([duplicates_removed = 0]) and keeps every line of that file, in
    order. *)
Theorem second_pass_no_duplicates ignore_rules allow_rules max_command_length
    content s :
  run_cleaner ignore_rules allow_rules max_command_length content = (true, s) ->
  exists s2,
    run_cleaner ignore_rules allow_rules max_command_length
      (written_history (cleaned_entries s)) = (true, s2)
    /\ stats s2 duplicates_removed = 0
    /\ cleaned_entries s2 = cleaned_entries s.
Proof.
  unfold run_cleaner at 1. intros H.
  destruct (process_history ignore_rules allow_rules max_command_length
              (readlines content) init_cleaner) as [r s1] eqn:E.
  destruct r as [e|b]; injection H as Hb <-; [discriminate|subst b].
  destruct (process_history_inv _ _ _ _ _ (readlines_no_cr content) E)
    as (ks & Hc & Hk & _).
  rewrite Hc. clear E Hc.
  pose proof (kept_lines_ok _ _ _ _ _ Hk) as Hok.
  assert (Hread : readlines (written_history (kept_lines ks))
                  = map (fun e => e ++ Py.nl) (kept_lines ks)).
  { apply readlines_written. eapply Forall_impl; [exact Hok|].
    intros e (Hn & Hr & _). auto. }
  assert (Hlines : Forall (fun e => Py.rstrip_nl (e ++ Py.nl) = e
                                    /\ starts_entry e = true
                                    /\ is_nonempty e = true) (kept_lines ks)).
  { eapply Forall_impl; [exact Hok|]. intros e (Hn & Hr & Hs & Hne).
    split; [|auto]. apply rstrip_nl_line; [exact Hn|exact Hr|].
    intros ->. discriminate Hne. }
  set (L := map (fun e => e ++ Py.nl) (kept_lines ks)).
  set (s_a := mkCleaner (set_stat total_lines (length L) (stats init_cleaner))
                        (seen_commands init_cleaner)
                        (cleaned_entries init_cleaner)).
  destruct (replay_entries ignore_rules allow_rules max_command_length ks [] s_a
              Hk ltac:(simpl; set_solver)) as (s' & Er & Hd & Hc').
  pose proof (process_lines_entries ignore_rules allow_rules
                max_command_length (kept_lines ks) "" s_a Hlines) as Epl.
  fold L in Epl.
  assert (E0 : ((if is_nonempty "" then [""] else []) ++ kept_lines ks)%list
               = kept_lines ks) by reflexivity.
  rewrite E0, Er in Epl.
  apply bind_inr in Epl as (cur & s3 & E3 & E4).
  unfold run_cleaner. rewrite Hread. fold L.
  unfold process_history, try_except, mbind, M_bind. cbv beta.
  rewrite (bind_inr_at (assign total_lines (length L)) _ init_cleaner tt s_a)
    by reflexivity.
  rewrite (bind_inr_at _ _ _ _ _ E3).
  rewrite (bind_inr_at _ _ _ _ _ E4).
  eexists. split; [reflexivity|].
  cbn [stats cleaned_entries]. simpl_stats. rewrite Hd, Hc'.
  split; reflexivity.
Qed.

Lemma second_pass_no_duplicates_witness :
  let s := snd (run_cleaner [git_commit_rule] [failed_commit_rule] 500
                  duplicate_history) in
  run_cleaner [git_commit_rule] [failed_commit_rule] 500 duplicate_history
    = (true, s)
  /\ exists s2,
    run_cleaner [git_commit_rule] [failed_commit_rule] 500
      (written_history (cleaned_entries s)) = (true, s2)
    /\ stats s2 duplicates_removed = 0
    /\ cleaned_entries s2 = cleaned_entries s.
Proof.
  intros s.
  assert (H : run_cleaner [git_commit_rule] [failed_commit_rule] 500
                duplicate_history = (true, s)) by (vm_compute; reflexivity).
  split; [exact H|].
  exact (second_pass_no_duplicates [git_commit_rule] [failed_commit_rule] 500
           duplicate_history s H).
Defined.

(** ** Further properties of the code *)

(** *** [normalize_command] *)

Lemma collapse_no_newline b s :
  all_chars Py.not_newline (Normalize.collapse_ws_from b s) = true.
Proof.
  revert b. induction s as [|c t IH]; intros b; simpl; [reflexivity|].
  destruct (Py.is_space c) eqn:Hc; [destruct b|]; simpl; rewrite ?IH;
    [reflexivity|reflexivity|].
  unfold Py.not_newline, Py.is_newline.
  destruct (Ascii.eqb_spec c "010"%char) as [->|]; [discriminate Hc|reflexivity].
Qed.

Lemma contains_nl_no_newline ws :
  all_chars Py.not_newline ws = true -> Py.contains Py.nl ws = false.
Proof.
  induction ws as [|z ws IH]; [reflexivity|]. cbn [all_chars Py.contains].
  intros H. apply andb_prop in H as [Hz H]. rewrite (IH H), orb_false_r.
  unfold Py.not_newline, Py.is_newline in Hz. unfold Py.nl.
  cbn [String.prefix].
  destruct (ascii_dec "010" z) as [<-|]; [discriminate Hz|reflexivity].
Qed.

Lemma sub_bs_newline_fuel_id n s :
  all_chars Py.not_newline s = true -> Normalize.sub_bs_newline_fuel n s = s.
Proof.
  revert s. induction n as [|n IH]; intros s Hs; [reflexivity|].
  destruct s as [|c t]; [reflexivity|]. simpl in Hs |- *.
  apply andb_prop in Hs as [_ Ht]. rewrite (IH t Ht).
  destruct (Ascii.eqb c "\"); [|reflexivity].
  pose proof (span_spec Py.is_space t) as Hsp.
  destruct (Py.span Py.is_space t) as [ws rest]. destruct Hsp as (-> & _ & _).
  rewrite all_chars_app in Ht. apply andb_prop in Ht as [Hws _].
  now rewrite (contains_nl_no_newline _ Hws).
Qed.

Lemma normalize_command_eq c :
  normalize_command c = Normalize.sub_bs_end (Normalize.collapse_ws (Py.strip c)).
Proof.
  unfold normalize_command, Normalize.sub_bs_newline.
  rewrite sub_bs_newline_fuel_id by apply collapse_no_newline. reflexivity.
Qed.

Lemma lstrip_app_spaces w x :
  all_chars Py.is_space w = true ->
  Py.lstrip_by Py.is_space (w ++ x) = Py.lstrip_by Py.is_space x.
Proof.
  induction w as [|z w IH]; [reflexivity|]. simpl. intros H.
  apply andb_prop in H as [Hz H]. rewrite Hz. exact (IH H).
Qed.

Lemma rstrip_all q b : all_chars q b = true -> Py.rstrip_by q b = "".
Proof.
  induction b as [|z b IH]; [reflexivity|]. simpl. intros H.
  apply andb_prop in H as [Hz H]. now rewrite (IH H), Hz.
Qed.

Lemma rstrip_app_all q a b :
  all_chars q b = true -> Py.rstrip_by q (a ++ b) = Py.rstrip_by q a.
Proof.
  intros Hb. induction a as [|z a IH]; simpl; [exact (rstrip_all q b Hb)|].
  now rewrite IH.
Qed.

Lemma lstrip_app c w :
  Py.lstrip_by Py.is_space (c ++ w)
  = if String.eqb (Py.lstrip_by Py.is_space c) ""
    then Py.lstrip_by Py.is_space w
    else Py.lstrip_by Py.is_space c ++ w.
Proof.
  induction c as [|z c IH]; [reflexivity|]. simpl.
  destruct (Py.is_space z); [exact IH|reflexivity].
Qed.

Lemma strip_app_spaces w1 c w2 :
  all_chars Py.is_space w1 = true -> all_chars Py.is_space w2 = true ->
  Py.strip (w1 ++ c ++ w2) = Py.strip c.
Proof.
  intros H1 H2. unfold Py.strip.
  rewrite lstrip_app_spaces by exact H1. rewrite lstrip_app.
  destruct (String.eqb_spec (Py.lstrip_by Py.is_space c) "") as [E|E].
  - rewrite E.
    assert (L : Py.lstrip_by Py.is_space w2 = "").
    { rewrite <- (str_app_nil_r w2). rewrite lstrip_app_spaces by exact H2.
      reflexivity. }
    now rewrite L.
  - apply rstrip_app_all. exact H2.
Qed.

Lemma lstrip_collapse b s :
  Py.lstrip_by Py.is_space (Normalize.collapse_ws_from b s)
  = Normalize.collapse_ws_from false (Py.lstrip_by Py.is_space s).
Proof.
  revert b. induction s as [|c t IH]; intros b; [reflexivity|]. simpl.
  destruct (Py.is_space c) eqn:Hc.
  - destruct b; simpl; exact (IH true).
  - simpl. now rewrite Hc.
Qed.

Lemma collapse_empty b u :
  Normalize.collapse_ws_from b u = "" -> all_chars Py.is_space u = true.
Proof.
  revert b. induction u as [|c t IH]; intros b; simpl; [reflexivity|].
  destruct (Py.is_space c); [|discriminate].
  destruct b; [|discriminate]. simpl. exact (IH true).
Qed.

Lemma rstrip_all_chars q u :
  all_chars q (Py.rstrip_by q u) = true -> Py.rstrip_by q u = "".
Proof.
  induction u as [|x u IH]; [reflexivity|]. simpl.
  destruct (q x && String.eqb (Py.rstrip_by q u) "") eqn:E; [reflexivity|].
  simpl. intros H. apply andb_prop in H as [Hx H].
  rewrite (IH H), Hx in E. discriminate E.
Qed.

Lemma rstrip_collapse b s :
  Py.rstrip_by Py.is_space (Normalize.collapse_ws_from b s)
  = Normalize.collapse_ws_from b (Py.rstrip_by Py.is_space s).
Proof.
  revert b. induction s as [|c t IH]; intros b; [reflexivity|].
  cbn [Normalize.collapse_ws_from Py.rstrip_by].
  destruct (Py.is_space c) eqn:Hc; cbn [andb].
  - pose proof (IH true) as IHt.
    destruct (String.eqb_spec (Py.rstrip_by Py.is_space t) "") as [E|E].
    + rewrite E in IHt. simpl in IHt.
      destruct b; [exact IHt|]. simpl. now rewrite IHt.
    + cbn [Normalize.collapse_ws_from]. rewrite Hc.
      destruct b; [exact IHt|]. simpl. rewrite IHt.
      destruct (String.eqb_spec
                  (Normalize.collapse_ws_from true
                     (Py.rstrip_by Py.is_space t)) "") as [F|F];
        [|reflexivity].
      exfalso. apply E, rstrip_all_chars. exact (collapse_empty _ _ F).
  - cbn [Normalize.collapse_ws_from Py.rstrip_by]. rewrite Hc, (IH false).
    reflexivity.
Qed.

Lemma collapse_strip s :
  Normalize.collapse_ws (Py.strip s) = Py.strip (Normalize.collapse_ws s).
Proof.
  unfold Normalize.collapse_ws, Py.strip.
  now rewrite <- rstrip_collapse, lstrip_collapse.
Qed.

Lemma collapse_ws_run b w y :
  all_chars Py.is_space w = true -> w <> "" ->
  Normalize.collapse_ws_from b (w ++ y)
  = (if b then "" else " ") ++ Normalize.collapse_ws_from true y.
Proof.
  revert b. induction w as [|z w IH]; intros b Hw Hne; [congruence|].
  simpl in Hw. apply andb_prop in Hw as [Hz Hw]. simpl. rewrite Hz.
  destruct w as [|z' w'].
  - destruct b; reflexivity.
  - rewrite (IH true Hw) by discriminate. destruct b; reflexivity.
Qed.

Lemma collapse_mid b x w1 w2 y :
  all_chars Py.is_space w1 = true -> w1 <> "" ->
  all_chars Py.is_space w2 = true -> w2 <> "" ->
  Normalize.collapse_ws_from b (x ++ w1 ++ y)
  = Normalize.collapse_ws_from b (x ++ w2 ++ y).
Proof.
  intros H1 N1 H2 N2. revert b.
  induction x as [|c x IH]; intros b; simpl.
  - now rewrite !collapse_ws_run.
  - destruct (Py.is_space c); [destruct b|]; now rewrite IH.
Qed.

Lemma single_spaced_collapse b s :
  single_spaced b (Normalize.collapse_ws_from b s) = true.
Proof.
  revert b. induction s as [|c t IH]; intros b; [reflexivity|]. simpl.
  destruct (Py.is_space c) eqn:Hc.
  - destruct b; [exact (IH true)|]. simpl. exact (IH true).
  - simpl. rewrite Hc. exact (IH false).
Qed.

Lemma single_spaced_prefix b a r :
  single_spaced b (a ++ r) = true -> single_spaced b a = true.
Proof.
  revert b. induction a as [|c a IH]; intros b; simpl; [reflexivity|].
  destruct (Py.is_space c).
  - intros H. apply andb_prop in H as [H1 H2]. rewrite H1. exact (IH _ H2).
  - exact (IH false).
Qed.

Lemma sub_bs_end_prefix s : exists r, s = Normalize.sub_bs_end s ++ r.
Proof.
  induction s as [|c t [r IH]]; [exists ""; reflexivity|]. simpl.
  destruct (Ascii.eqb c "\" && String.eqb (Py.lstrip_by Py.is_space t) "").
  - exists (String c t). reflexivity.
  - exists r. simpl. now rewrite <- IH.
Qed.

Lemma strip_head s :
  match Py.strip s with
  | String x _ => Py.is_space x = false
  | EmptyString => True
  end.
Proof.
  unfold Py.strip.
  assert (Hl : match Py.lstrip_by Py.is_space s with
               | String x _ => Py.is_space x = false
               | EmptyString => True end).
  { induction s as [|c t IH]; simpl; [exact I|].
    destruct (Py.is_space c) eqn:Hc; [exact IH|exact Hc]. }
  destruct (Py.lstrip_by Py.is_space s) as [|x t]; [exact I|]. simpl.
  destruct (Py.is_space x && String.eqb (Py.rstrip_by Py.is_space t) "");
    [exact I|exact Hl].
Qed.

(** X1: the second substitution of [normalize_command],
    re.sub(r"\\\s*\n\s*", " ", ...), never changes its argument: the
    first one has already replaced every newline by a space. *)
Theorem normalize_continuation_sub_unused c :
  Normalize.sub_bs_newline (Normalize.collapse_ws (Py.strip c))
  = Normalize.collapse_ws (Py.strip c).
Proof.
  unfold Normalize.sub_bs_newline. apply sub_bs_newline_fuel_id.
  apply collapse_no_newline.
Qed.

(** X2: whitespace around a command does not change its normalized
    form. *)
Theorem normalize_surrounding_whitespace w1 c w2 :
  all_chars Py.is_space w1 = true -> all_chars Py.is_space w2 = true ->
  normalize_command (w1 ++ c ++ w2) = normalize_command c.
Proof.
  intros H1 H2. rewrite !normalize_command_eq.
  now rewrite strip_app_spaces.
Qed.

Lemma normalize_surrounding_whitespace_witness :
  normalize_command (String "009" " " ++ "ls -la" ++ Py.nl ++ " ")
  = normalize_command "ls -la".
Proof.
  apply normalize_surrounding_whitespace; reflexivity.
Defined.

(** X3: replacing one non-empty run of whitespace inside a command by
    another does not change its normalized form. *)
Theorem normalize_whitespace_run x w1 w2 y :
  all_chars Py.is_space w1 = true -> w1 <> "" ->
  all_chars Py.is_space w2 = true -> w2 <> "" ->
  normalize_command (x ++ w1 ++ y) = normalize_command (x ++ w2 ++ y).
Proof.
  intros H1 N1 H2 N2. rewrite !normalize_command_eq, !collapse_strip.
  unfold Normalize.collapse_ws. now rewrite (collapse_mid false x w1 w2 y).
Qed.

Lemma normalize_whitespace_run_witness :
  normalize_command ("echo" ++ String "009" " " ++ "hi")
  = normalize_command ("echo" ++ " " ++ "hi").
Proof.
  apply normalize_whitespace_run; first [reflexivity | discriminate].
Defined.

(** X4: a normalized command has no whitespace other than single spaces:
    no tab or newline, no space at its start and no two spaces in a
    row. *)
Theorem normalize_single_spaced c :
  single_spaced true (normalize_command c) = true.
Proof.
  rewrite normalize_command_eq.
  destruct (sub_bs_end_prefix (Normalize.collapse_ws (Py.strip c))) as [r Hr].
  apply (single_spaced_prefix _ _ r). rewrite <- Hr.
  unfold Normalize.collapse_ws. pose proof (strip_head c) as Hh.
  destruct (Py.strip c) as [|x t]; [reflexivity|].
  cbn [Normalize.collapse_ws_from]. rewrite Hh. cbn [single_spaced].
  rewrite Hh. apply single_spaced_collapse.
Qed.

(** *** [FilterRule] and the rule loops *)

Lemma lower_char_idem x : Py.lower_char (Py.lower_char x) = Py.lower_char x.
Proof. destruct x as [[] [] [] [] [] [] [] []]; reflexivity. Qed.

Lemma lower_idem s : Py.lower (Py.lower s) = Py.lower s.
Proof.
  induction s as [|x s IH]; [reflexivity|]. simpl. now rewrite lower_char_idem, IH.
Qed.

(** X5: a rule that is not case-sensitive and not a regex gives the same
    answer, or raises the same exception, for a command and for its
    lower-cased form. *)
Theorem matches_lower_command r command :
  case_sensitive r = false -> String.eqb (match_type r) "regex" = false ->
  matches r (Py.lower command) = matches r command.
Proof.
  intros Hcs Hre. unfold matches. rewrite Hcs, lower_idem, Hre. reflexivity.
Qed.

Lemma matches_lower_command_witness :
  matches git_commit_rule (Py.lower "GIT Commit -m x")
  = matches git_commit_rule "GIT Commit -m x".
Proof. apply matches_lower_command; reflexivity. Defined.

(** X6: the match type given to [FilterRule] is read without regard to
    letter case: [FilterRule(p, mt, cs)] and [FilterRule(p, mt.lower(), cs)]
    build the same rule or raise the same error. *)
Theorem filter_rule_match_type_case re_compile pattern match_type cs :
  FilterRule_init re_compile pattern (Py.lower match_type) cs
  = FilterRule_init re_compile pattern match_type cs.
Proof. unfold FilterRule_init. now rewrite lower_idem. Qed.

Lemma check_rules_total rules c :
  Forall (fun r => well_formed_rule r = true) rules ->
  exists b, check_rules rules c = inr b.
Proof.
  induction 1 as [|r rs Hr _ IH]; simpl; [eauto|].
  destruct (well_formed_matches r c Hr) as [[|] ->]; eauto.
Qed.

(** X7: on rules that are well formed (a known match type, and a compiled
    pattern for a regex rule), [check_ignore_rules] and
    [check_allow_rules] return [True] exactly when some rule matches, and
    [False] exactly when no rule does. *)
Theorem check_rules_any rules c :
  Forall (fun r => well_formed_rule r = true) rules ->
  (check_rules rules c = inr true
   <-> Exists (fun r => matches r c = inr true) rules)
  /\ (check_rules rules c = inr false
      <-> Forall (fun r => matches r c = inr false) rules).
Proof.
  induction 1 as [|r rs Hr Hrs IH]; simpl.
  - split; split; intros H; try discriminate; try constructor.
    inversion H.
  - destruct IH as [IH1 IH2].
    destruct (well_formed_matches r c Hr) as [[|] Hm]; rewrite Hm.
    + split; split; intros H; try discriminate.
      * constructor. exact Hm.
      * reflexivity.
      * inversion H; congruence.
    + split; split; intros H.
      * apply Exists_cons_tl. apply IH1. exact H.
      * inversion H; subst; [congruence|]. apply IH1. assumption.
      * constructor; [exact Hm|]. apply IH2. exact H.
      * inversion H; subst. apply IH2. assumption.
Qed.

Lemma check_rules_any_witness :
  check_rules [git_commit_rule; failed_commit_rule] "git commit -m x"
    = inr true
  <-> Exists (fun r => matches r "git commit -m x" = inr true)
        [git_commit_rule; failed_commit_rule].
Proof.
  apply (check_rules_any [git_commit_rule; failed_commit_rule]
           "git commit -m x").
  repeat constructor.
Defined.

Section Total.

Variables (ignore_rules allow_rules : list FilterRule) (max_command_length : nat).
Hypothesis ignore_wf : Forall (fun r => well_formed_rule r = true) ignore_rules.
Hypothesis allow_wf : Forall (fun r => well_formed_rule r = true) allow_rules.

Local Abbreviation process_entry :=
  (_process_entry ignore_rules allow_rules max_command_length).

Lemma worth_keeping_total c :
  exists p, is_command_worth_keeping ignore_rules allow_rules
              max_command_length c = inr p.
Proof.
  unfold is_command_worth_keeping, check_allow_rules, check_ignore_rules.
  destruct (is_nonempty (Py.strip c)); simpl; [|eauto].
  destruct (check_rules_total allow_rules (Py.strip c) allow_wf) as [[|] ->];
    [eauto|].
  destruct (check_rules_total ignore_rules (Py.strip c) ignore_wf) as [[|] ->];
    [eauto|].
  destruct (Nat.ltb _ _); [eauto|].
  match goal with |- exists p, (if ?b then _ else _) = _ => destruct b end;
  eauto.
Qed.

Lemma process_entry_total e s : exists s', process_entry e s = (inr tt, s').
Proof.
  unfold _process_entry.
  destruct (parse_history_entry e) as [[ts c]|]; mrun; [|eexists; reflexivity].
  unfold check_allow_rules, check_ignore_rules.
  destruct (check_rules_total allow_rules c allow_wf) as [[|] ->];
    [eexists; reflexivity|].
  destruct (check_rules_total ignore_rules c ignore_wf) as [[|] ->];
    [eexists; reflexivity|].
  destruct (worth_keeping_total c) as [[[|] r] ->]; simpl.
  - destruct (decide _); eexists; reflexivity.
  - destruct (String.eqb r "too_long"); eexists; reflexivity.
Qed.

Lemma process_lines_total lines cur s :
  exists c s', process_lines ignore_rules allow_rules max_command_length
                 lines cur s = (inr c, s').
Proof.
  revert cur s. induction lines as [|raw rest IH]; intros cur s; simpl.
  - eexists _, _. reflexivity.
  - destruct (starts_entry (Py.rstrip_nl raw)).
    + destruct (is_nonempty cur).
      * destruct (process_entry_total cur s) as [s1 E].
        destruct (IH (Py.rstrip_nl raw) s1) as (c & s' & E').
        exists c, s'. mrun. rewrite E. exact E'.
      * exact (IH _ s).
    + destruct (is_nonempty cur); [exact (IH _ s)|].
      destruct (IH cur (mkCleaner (set_stat malformed_removed
                                      (S (stats s malformed_removed))
                                      (stats s))
                                   (seen_commands s) (cleaned_entries s)))
        as (c & s' & E').
      exists c, s'. exact E'.
Qed.

Lemma run_cleaner_total content :
  exists s, run_cleaner ignore_rules allow_rules max_command_length content
            = (true, s).
Proof.
  unfold run_cleaner, process_history, try_except.
  set (s_a := mkCleaner (set_stat total_lines (length (readlines content))
                           (stats init_cleaner))
                        (seen_commands init_cleaner)
                        (cleaned_entries init_cleaner)).
  destruct (process_lines_total (readlines content) "" s_a) as (c & s3 & E3).
  assert (E4 : exists s4, (if is_nonempty c then process_entry c else ret tt) s3
                          = (inr tt, s4)).
  { destruct (is_nonempty c); [apply process_entry_total|eexists; reflexivity]. }
  destruct E4 as [s4 E4].
  unfold mbind, M_bind. cbv beta.
  rewrite (bind_inr_at (assign total_lines _) _ init_cleaner tt s_a)
    by reflexivity.
  rewrite (bind_inr_at _ _ _ _ _ E3), (bind_inr_at _ _ _ _ _ E4).
  eexists. reflexivity.
Qed.

End Total.

(** X8: when every ignore and allow rule is well formed (a known match
    type, and a compiled pattern for a regex rule), [process_history]
    returns [True] on every history file: no exception reaches its
    handler. *)
Theorem process_history_succeeds ignore_rules allow_rules max_command_length
    content :
  Forall (fun r => well_formed_rule r = true) ignore_rules ->
  Forall (fun r => well_formed_rule r = true) allow_rules ->
  exists s, run_cleaner ignore_rules allow_rules max_command_length content
            = (true, s).
Proof. intros Hi Ha. exact (run_cleaner_total _ _ _ Hi Ha content). Qed.

Lemma process_history_succeeds_witness :
  exists s, run_cleaner [git_commit_rule; empty_contains_rule]
              [failed_commit_rule; blank_rule] 500 duplicate_history
            = (true, s).
Proof. apply process_history_succeeds; repeat constructor. Defined.

(** *** What a run that returns [True] leaves *)

Lemma run_cleaner_true ignore_rules allow_rules max_command_length content s :
  run_cleaner ignore_rules allow_rules max_command_length content = (true, s) ->
  process_history ignore_rules allow_rules max_command_length
    (readlines content) init_cleaner = (inr true, s).
Proof.
  unfold run_cleaner at 1.
  destruct (process_history _ _ _ _ _) as [[e|b] s1]; intros H;
    injection H as Hb <-; [discriminate|subst b; reflexivity].
Qed.

(** The steps of [process_history] when it returns [True]. *)
Lemma process_history_steps ignore_rules allow_rules max_command_length
    lines s :
  process_history ignore_rules allow_rules max_command_length lines
    init_cleaner = (inr true, s) ->
  exists cur s3 s4,
    process_lines ignore_rules allow_rules max_command_length lines ""
      (mkCleaner (set_stat total_lines (length lines) (stats init_cleaner))
                 (seen_commands init_cleaner) (cleaned_entries init_cleaner))
    = (inr cur, s3)
    /\ (if is_nonempty cur
        then _process_entry ignore_rules allow_rules max_command_length cur
        else ret tt) s3 = (inr tt, s4)
    /\ s = mkCleaner (set_stat final_entries (length (cleaned_entries s4))
                                (stats s4))
                     (seen_commands s4) (cleaned_entries s4).
Proof.
  unfold process_history, try_except. intros H.
  match type of H with
  | context [match ?body init_cleaner with _ => _ end] =>
      destruct (body init_cleaner) as [[e|b] s1] eqn:E
  end; [discriminate|].
  injection H as -> <-.
  apply mbind_inr in E as ([] & s2 & E1 & E2).
  apply bind_inr in E2 as (cur & s3 & E3 & E4).
  apply mbind_inr in E4 as ([] & s4 & E5 & E6).
  apply bind_inr in E6 as (s5 & s6 & E7 & E8).
  apply mbind_inr in E8 as ([] & s7 & E9 & E10).
  injection E1 as <-. injection E7 as <- <-. injection E9 as <-.
  injection E10 as <-.
  exists cur, s3, s4. auto.
Qed.

Lemma is_nonempty_true s : is_nonempty s = true -> s <> "".
Proof. unfold is_nonempty. intros H ->. discriminate H. Qed.

(** What [is_command_worth_keeping] checked when it keeps a command. *)
Lemma worth_keeping_true ignore_rules allow_rules max_command_length c r :
  is_command_worth_keeping ignore_rules allow_rules max_command_length c
  = inr (true, r) ->
  Py.strip c <> ""
  /\ check_allow_rules allow_rules (Py.strip c) = inr false
  /\ (check_ignore_rules ignore_rules (Py.strip c) = inr true
      \/ (String.length (Py.strip c) <= max_command_length
          /\ existsb (fun search => search (Py.strip c))
               Noise.repetitive_patterns = false)).
Proof.
  unfold is_command_worth_keeping.
  destruct (is_nonempty (Py.strip c)) eqn:Hne; simpl; [|discriminate].
  apply is_nonempty_true in Hne.
  destruct (check_allow_rules _ _) as [e|[|]]; try discriminate.
  destruct (check_ignore_rules _ _) as [e|[|]]; try discriminate.
  - intros _. auto.
  - destruct (Nat.ltb _ _) eqn:Hl; [discriminate|].
    apply Nat.ltb_ge in Hl.
    match goal with |- (if ?b then _ else _) = _ -> _ => destruct b eqn:Hb end;
      [discriminate|].
    intros _. auto 6.
Qed.

(** X10: every line [write_cleaned_history] would write after a run that
    returns [True] is [": " + timestamp_part + ";" + command] for the
    entry it parses to; no allow rule matches the command, and an ignore
    rule matches it or the stripped command is non-empty, matched by no
    allow rule, and matched by an ignore rule or both within
    [max_command_length] and free of the noise patterns. *)
Theorem output_lines_kept ignore_rules allow_rules max_command_length
    content s :
  run_cleaner ignore_rules allow_rules max_command_length content = (true, s) ->
  Forall (fun e => exists ts c,
    parse_history_entry e = Some (ts, c) /\ e = format_entry ts c
    /\ check_allow_rules allow_rules c = inr false
    /\ (check_ignore_rules ignore_rules c = inr true
        \/ (Py.strip c <> ""
            /\ check_allow_rules allow_rules (Py.strip c) = inr false
            /\ (check_ignore_rules ignore_rules (Py.strip c) = inr true
                \/ (String.length (Py.strip c) <= max_command_length
                    /\ existsb (fun search => search (Py.strip c))
                         Noise.repetitive_patterns = false)))))
    (cleaned_entries s).
Proof.
  intros H. apply run_cleaner_true in H.
  destruct (process_history_inv _ _ _ _ _ (readlines_no_cr content) H)
    as (ks & -> & Hk & _).
  clear H. revert Hk. generalize (@nil (string * string)) as p.
  induction ks as [|[ts c] ks IH]; intros p Hk; [constructor|].
  destruct Hk as [(Hts & Hn & _ & Ha & Hi) Hk]. cbn [fst snd] in *.
  constructor; [|exact (IH _ Hk)].
  exists ts, c. destruct Hts as (d1 & d2 & -> & Hd1 & Hd2 & Hg1 & Hg2).
  split; [apply parse_format_entry; assumption|].
  split; [reflexivity|]. split; [exact Ha|].
  destruct Hi as [Hi | (_ & (r & Hw) & _)]; [left; exact Hi|right].
  exact (worth_keeping_true _ _ _ _ _ Hw).
Qed.

Lemma output_lines_kept_witness :
  let s := snd (run_cleaner [git_commit_rule] [failed_commit_rule] 500
                  duplicate_history) in
  run_cleaner [git_commit_rule] [failed_commit_rule] 500 duplicate_history
    = (true, s)
  /\ Forall (fun e => exists ts c,
    parse_history_entry e = Some (ts, c) /\ e = format_entry ts c
    /\ check_allow_rules [failed_commit_rule] c = inr false
    /\ (check_ignore_rules [git_commit_rule] c = inr true
        \/ (Py.strip c <> ""
            /\ check_allow_rules [failed_commit_rule] (Py.strip c) = inr false
            /\ (check_ignore_rules [git_commit_rule] (Py.strip c) = inr true
                \/ (String.length (Py.strip c) <= 500
                    /\ existsb (fun search => search (Py.strip c))
                         Noise.repetitive_patterns = false)))))
    (cleaned_entries s).
Proof.
  intros s.
  assert (H : run_cleaner [git_commit_rule] [failed_commit_rule] 500
                duplicate_history = (true, s)) by (vm_compute; reflexivity).
  split; [exact H|].
  exact (output_lines_kept [git_commit_rule] [failed_commit_rule] 500
           duplicate_history s H).
Defined.

(** Without ignore rules every kept entry passed the [seen_commands]
    test. *)
Lemma kept_from_no_ignore_nodup allow_rules max_command_length p ks :
  kept_from [] allow_rules max_command_length p ks ->
  NoDup (norms p) -> NoDup (norms (p ++ ks)).
Proof.
  revert p. induction ks as [|k ks IH]; intros p Hk Hp.
  - now rewrite app_nil_r.
  - destruct Hk as [(_ & _ & _ & _ & Hi) Hk].
    destruct Hi as [Hi | (_ & _ & Hn)]; [discriminate Hi|].
    replace (p ++ k :: ks)%list with ((p ++ [k]) ++ ks)%list
      by (now rewrite <- app_assoc).
    apply IH; [exact Hk|].
    unfold norms in *. rewrite map_app. cbn [map].
    apply NoDup_app. split; [exact Hp|]. split; [|apply NoDup_singleton].
    intros x Hx Hx'. apply list_elem_of_singleton in Hx'. subst x.
    exact (Hn Hx).
Qed.

Lemma kept_lines_parse ignore_rules allow_rules max_command_length p ks :
  kept_from ignore_rules allow_rules max_command_length p ks ->
  map (fun e => option_map (fun tc => normalize_command (snd tc))
                  (parse_history_entry e)) (kept_lines ks)
  = map Some (norms ks).
Proof.
  revert p. induction ks as [|[ts c] ks IH]; intros p Hk; [reflexivity|].
  destruct Hk as [(Hts & Hn & _) Hk]. cbn [fst snd] in *.
  cbn [kept_lines norms map fst snd] in *.
  destruct Hts as (d1 & d2 & -> & Hd1 & Hd2 & Hg1 & Hg2).
  rewrite parse_format_entry by assumption.
  unfold kept_lines, norms in IH. rewrite (IH _ Hk). reflexivity.
Qed.

Lemma NoDup_map_Some {A} (l : list A) : NoDup l -> NoDup (map Some l).
Proof.
  induction 1 as [|x l Hx _ IH]; simpl; constructor; [|exact IH].
  intros Hin. apply list_elem_of_In, in_map_iff in Hin as (y & Hy & Hin).
  injection Hy as ->.
  apply Hx. apply list_elem_of_In. exact Hin.
Qed.

(** X11: with no ignore rules, the lines a run that returns [True] keeps
    have pairwise different normalized commands: [seen_commands] then
    holds the normalized command of every kept entry and of nothing
    else. *)
Theorem no_ignore_rules_distinct allow_rules max_command_length content s :
  run_cleaner [] allow_rules max_command_length content = (true, s) ->
  NoDup (map (fun e => option_map (fun tc => normalize_command (snd tc))
                         (parse_history_entry e)) (cleaned_entries s)).
Proof.
  intros H. apply run_cleaner_true in H.
  destruct (process_history_inv _ _ _ _ _ (readlines_no_cr content) H)
    as (ks & -> & Hk & _).
  rewrite (kept_lines_parse _ _ _ _ _ Hk).
  apply NoDup_map_Some.
  exact (kept_from_no_ignore_nodup _ _ [] ks Hk (NoDup_nil_2)).
Qed.

Lemma no_ignore_rules_distinct_witness :
  let s := snd (run_cleaner [] [failed_commit_rule] 500 spaced_history) in
  run_cleaner [] [failed_commit_rule] 500 spaced_history = (true, s)
  /\ NoDup (map (fun e => option_map (fun tc => normalize_command (snd tc))
                            (parse_history_entry e)) (cleaned_entries s)).
Proof.
  intros s.
  assert (H : run_cleaner [] [failed_commit_rule] 500 spaced_history
              = (true, s)) by (vm_compute; reflexivity).
  split; [exact H|].
  exact (no_ignore_rules_distinct [failed_commit_rule] 500 spaced_history s H).
Defined.

(** *** The counters *)

Ltac simpl_stats_in H :=
  repeat first [ rewrite set_stat_same in H
               | rewrite set_stat_other in H by discriminate ].

Section Counts.

Variables (ignore_rules allow_rules : list FilterRule) (max_command_length : nat).

Local Abbreviation process_entry :=
  (_process_entry ignore_rules allow_rules max_command_length).

(** An entry counts as valid or malformed exactly once; [ignored_kept]
    grows only with the output. *)
Lemma process_entry_counts entry s s' :
  process_entry entry s = (inr tt, s') ->
  stats s' valid_entries + stats s' malformed_removed
  = stats s valid_entries + stats s malformed_removed + 1
  /\ stats s' total_lines = stats s total_lines
  /\ stats s' ignored_kept + length (cleaned_entries s)
     <= stats s ignored_kept + length (cleaned_entries s').
Proof.
  intros H. unfold _process_entry in H. mrun_in H.
  split_matches H.
  all: injection H as <-; simpl; simpl_stats; rewrite ?length_app; simpl;
       lia.
Qed.

Lemma process_lines_counts lines cur s c s' :
  process_lines ignore_rules allow_rules max_command_length lines cur s
  = (inr c, s') ->
  stats s' valid_entries + stats s' malformed_removed + b2n (is_nonempty c)
  <= stats s valid_entries + stats s malformed_removed
     + b2n (is_nonempty cur) + length lines
  /\ stats s' total_lines = stats s total_lines
  /\ stats s' ignored_kept + length (cleaned_entries s)
     <= stats s ignored_kept + length (cleaned_entries s').
Proof.
  revert cur s.
  induction lines as [|raw rest IH]; intros cur s H; simpl in H.
  - injection H as <- <-. simpl. lia.
  - assert (Hb : forall x, b2n x <= 1) by (intros []; simpl; lia).
    destruct (starts_entry (Py.rstrip_nl raw)).
    + apply mbind_inr in H as ([] & s1 & H1 & H2).
      destruct (IH _ _ H2) as (IH1 & IH2 & IH3).
      destruct (is_nonempty cur).
      * destruct (process_entry_counts _ _ _ H1) as (C1 & C2 & C3).
        specialize (Hb (is_nonempty (Py.rstrip_nl raw))).
        simpl. lia.
      * injection H1 as <-.
        specialize (Hb (is_nonempty (Py.rstrip_nl raw))).
        simpl. lia.
    + destruct (is_nonempty cur) eqn:Hcur.
      * destruct (IH _ _ H) as (IH1 & IH2 & IH3).
        match type of IH1 with
        | context [b2n (is_nonempty (cur ++ ?t))] =>
            specialize (Hb (is_nonempty (cur ++ t)))
        end.
        cbn [length b2n]. lia.
      * apply mbind_inr in H as ([] & s1 & H1 & H2).
        injection H1 as <-.
        destruct (IH _ _ H2) as (IH1 & IH2 & IH3).
        cbn [stats cleaned_entries] in IH1, IH2, IH3. rewrite Hcur in IH1.
        simpl_stats_in IH1. simpl_stats_in IH2. simpl_stats_in IH3.
        cbn [length b2n] in *. lia.
Qed.

End Counts.

(** X12: after a run that returns [True], the counters [print_stats]
    shows satisfy [ignored_kept <= final_entries <= valid_entries] and
    [valid_entries + malformed_removed <= total_lines], with
    [total_lines] the number of lines read: the size reduction it prints
    lies between 0 and 100%. *)
Theorem stats_bounds ignore_rules allow_rules max_command_length content s :
  run_cleaner ignore_rules allow_rules max_command_length content = (true, s) ->
  stats s ignored_kept <= stats s final_entries
  /\ stats s final_entries <= stats s valid_entries
  /\ stats s valid_entries + stats s malformed_removed <= stats s total_lines
  /\ stats s total_lines = length (readlines content).
Proof.
  intros H. apply run_cleaner_true in H.
  pose proof H as H'.
  apply process_history_steps in H as (cur & s3 & s4 & E3 & E4 & ->).
  assert (Hb3 := process_lines_balanced _ _ _ _ _ _ _ _ E3 ltac:(reflexivity)).
  destruct (process_lines_counts _ _ _ _ _ _ _ _ E3) as (C1 & C2 & C3).
  cbn [stats cleaned_entries init_cleaner] in C1, C2, C3. simpl_stats.
  cbn in C1, C2, C3. rewrite set_stat_same in C2.
  rewrite !set_stat_other in C1, C3 by discriminate.
  assert (Hb4 : stats_balanced s4
                /\ stats s4 valid_entries + stats s4 malformed_removed
                   <= length (readlines content)
                /\ stats s4 total_lines = length (readlines content)
                /\ stats s4 ignored_kept <= length (cleaned_entries s4)).
  { destruct (is_nonempty cur).
    - destruct (process_entry_counts _ _ _ _ _ _ E4) as (D1 & D2 & D3).
      split; [exact (process_entry_balanced _ _ _ _ _ _ E4 Hb3)|].
      simpl in C1. lia.
    - injection E4 as <-. simpl in C1. auto with lia. }
  destruct Hb4 as (Hb4 & B1 & B2 & B3). unfold stats_balanced in Hb4.
  cbn [stats cleaned_entries]. simpl_stats. lia.
Qed.

Lemma stats_bounds_witness :
  let s := snd (run_cleaner [git_commit_rule] [failed_commit_rule] 500
                  duplicate_history) in
  run_cleaner [git_commit_rule] [failed_commit_rule] 500 duplicate_history
    = (true, s)
  /\ stats s ignored_kept <= stats s final_entries
  /\ stats s final_entries <= stats s valid_entries
  /\ stats s valid_entries + stats s malformed_removed <= stats s total_lines
  /\ stats s total_lines = length (readlines duplicate_history).
Proof.
  intros s.
  assert (H : run_cleaner [git_commit_rule] [failed_commit_rule] 500
                duplicate_history = (true, s)) by (vm_compute; reflexivity).
  split; [exact H|].
  exact (stats_bounds [git_commit_rule] [failed_commit_rule] 500
           duplicate_history s H).
Defined.

(** *** Reading and writing the history file *)

Lemma rstrip_nl_line' e :
  all_chars Py.not_newline e = true -> all_chars not_cr e = true ->
  Py.rstrip_nl (e ++ Py.nl) = e.
Proof.
  intros Hn Hr. destruct e as [|a e]; [reflexivity|].
  apply rstrip_nl_line; [exact Hn|exact Hr|discriminate].
Qed.

(** X13: [write_cleaned_history] writes each entry followed by "\n";
    reading that file back with [readlines] and stripping each line with
    [rstrip("\n\r")], as [process_history] does, gives back the entries,
    in order, when none of them contains a newline or a carriage
    return. *)
Theorem written_history_readlines es :
  Forall (fun e => all_chars Py.not_newline e = true
                   /\ all_chars not_cr e = true) es ->
  map Py.rstrip_nl (readlines (written_history es)) = es.
Proof.
  intros Hes. rewrite readlines_written by exact Hes.
  induction Hes as [|e es [Hn Hr] _ IH]; [reflexivity|].
  cbn [map]. rewrite rstrip_nl_line' by assumption. now rewrite IH.
Qed.

Lemma written_history_readlines_witness :
  Forall (fun e => all_chars Py.not_newline e = true
                   /\ all_chars not_cr e = true) [": 1:0;ls"; ""; "echo hi"]
  /\ map Py.rstrip_nl (readlines (written_history [": 1:0;ls"; ""; "echo hi"]))
     = [": 1:0;ls"; ""; "echo hi"].
Proof.
  assert (H : Forall (fun e => all_chars Py.not_newline e = true
                               /\ all_chars not_cr e = true)
                [": 1:0;ls"; ""; "echo hi"]) by (repeat constructor).
  split; [exact H|]. exact (written_history_readlines _ H).
Defined.

(** The parser accepts a formatted line followed by one newline. *)
Lemma parse_format_entry_nl d1 d2 c :
  d1 <> "" -> d2 <> "" ->
  all_chars Py.is_digit d1 = true -> all_chars Py.is_digit d2 = true ->
  all_chars Py.not_newline c = true ->
  parse_history_entry (format_entry (d1 ++ ":" ++ d2) c ++ Py.nl)
  = Some (d1 ++ ":" ++ d2, c).
Proof.
  intros Hd1 Hd2 Hdig1 Hdig2 Hc.
  unfold parse_history_entry, format_entry. str_norm.
  rewrite span_app by (simpl; auto).
  destruct d1 as [|x1 d1]; [congruence|]. cbn [Py.span].
  rewrite span_app by (simpl; auto).
  destruct d2 as [|x2 d2]; [congruence|].
  unfold dot_star_dollar. rewrite span_app by (simpl; auto).
  reflexivity.
Qed.

(** X14: [parse_history_entry] accepts a line exactly when it is
    [": " + timestamp_part + ";" + command], possibly followed by one
    newline, where [timestamp_part] is two non-empty runs of digits
    around [:] and [command] has no newline; it then returns these two
    parts. *)
Theorem parse_history_entry_iff line ts c :
  parse_history_entry line = Some (ts, c)
  <-> timestamp_ok ts /\ all_chars Py.not_newline c = true
      /\ (line = format_entry ts c \/ line = format_entry ts c ++ Py.nl).
Proof.
  split.
  - intros H. apply parse_history_entry_spec in H
      as (d1 & d2 & rest & -> & Hd1 & Hd2 & Hg1 & Hg2 & Hc & Hrest & ->).
    split; [exists d1, d2; auto|]. split; [exact Hc|].
    destruct Hrest as [-> | ->]; [left; apply str_app_nil_r|right; reflexivity].
  - intros ((d1 & d2 & -> & Hd1 & Hd2 & Hg1 & Hg2) & Hc & [-> | ->]).
    + apply parse_format_entry; assumption.
    + apply parse_format_entry_nl; assumption.
Qed.

Lemma parse_history_entry_iff_witness :
  parse_history_entry (": 12:3;ls -l" ++ Py.nl) = Some ("12:3", "ls -l")
  <-> timestamp_ok "12:3" /\ all_chars Py.not_newline "ls -l" = true
      /\ (": 12:3;ls -l" ++ Py.nl = format_entry "12:3" "ls -l"
          \/ ": 12:3;ls -l" ++ Py.nl = format_entry "12:3" "ls -l" ++ Py.nl).
Proof. apply parse_history_entry_iff. Defined.

(** *** The output as a subsequence of the input *)

Lemma rstrip_nl_no_newline_split acc s :
  all_chars Py.not_newline acc = true -> all_chars not_cr (acc ++ s) = true ->
  Forall (fun l => all_chars Py.not_newline (Py.rstrip_nl l) = true)
    (split_lines acc s).
Proof.
  revert acc. induction s as [|a s IH]; intros acc Hacc Hs; simpl.
  - destruct (is_nonempty acc); [|constructor].
    constructor; [|constructor]. apply all_chars_rstrip. exact Hacc.
  - rewrite all_chars_app in Hs. apply andb_prop in Hs as [Hacr Hs].
    simpl in Hs. apply andb_prop in Hs as [Ha Hs].
    destruct (Py.is_newline a) eqn:Hnl.
    + constructor; [|apply IH; [reflexivity|exact Hs]].
      rewrite rstrip_nl_line' by assumption. exact Hacc.
    + apply IH.
      * rewrite all_chars_app, Hacc. simpl. unfold Py.not_newline.
        now rewrite Hnl.
      * rewrite !all_chars_app, Hacr. simpl. now rewrite Ha, Hs.
Qed.

Lemma readlines_lines content :
  Forall (fun l => all_chars Py.not_newline (Py.rstrip_nl l) = true)
    (readlines content).
Proof.
  apply rstrip_nl_no_newline_split; [reflexivity|].
  apply translate_newlines_no_cr.
Qed.

Lemma is_nonempty_false s : is_nonempty s = false -> s = "".
Proof.
  unfold is_nonempty. destruct (String.eqb_spec s ""); [auto|discriminate].
Qed.

(** A newline-free prefix that ends at the end or at a newline is
    determined by the string. *)
Lemma newline_free_prefix_unique a x b r :
  all_chars Py.not_newline a = true -> all_chars Py.not_newline b = true ->
  (x = "" \/ exists y, x = Py.nl ++ y) -> (r = "" \/ r = Py.nl) ->
  a ++ x = b ++ r -> a = b.
Proof.
  revert b. induction a as [|ch a IH]; intros b Ha Hb Hx Hr E.
  - destruct b as [|ch' b]; [reflexivity|exfalso]. cbn [String.append] in E.
    destruct Hx as [-> | (y & ->)]; [discriminate|].
    injection E as Hch _. subst ch'. discriminate Hb.
  - destruct b as [|ch' b].
    + exfalso. cbn [String.append] in E.
      destruct Hr as [-> | ->]; [discriminate|].
      injection E as Hch _. subst ch. discriminate Ha.
    + cbn [String.append all_chars] in *. injection E as <- E.
      apply andb_prop in Ha as [_ Ha]. apply andb_prop in Hb as [_ Hb].
      f_equal. exact (IH _ Ha Hb Hx Hr E).
Qed.

Lemma format_entry_no_newline ts c :
  timestamp_ok ts -> all_chars Py.not_newline c = true ->
  all_chars Py.not_newline (format_entry ts c) = true.
Proof.
  intros (d1 & d2 & -> & _ & _ & Hd1 & Hd2) Hc.
  unfold format_entry. rewrite !all_chars_app, Hc.
  rewrite (all_chars_impl _ _ _ digit_not_newline Hd1),
          (all_chars_impl _ _ _ digit_not_newline Hd2).
  reflexivity.
Qed.

(** The line an accumulated entry outputs is its first physical line. *)
Lemma entry_output_first_line l0 x ts c :
  all_chars Py.not_newline l0 = true ->
  (x = "" \/ exists y, x = Py.nl ++ y) ->
  parse_history_entry (l0 ++ x) = Some (ts, c) ->
  format_entry ts c = l0.
Proof.
  intros Hl Hx H.
  apply parse_history_entry_spec in H
    as (d1 & d2 & rest & -> & Hd1 & Hd2 & Hg1 & Hg2 & Hc & Hrest & E).
  symmetry. eapply newline_free_prefix_unique; [exact Hl| |exact Hx|exact Hrest|exact E].
  apply format_entry_no_newline; [|exact Hc]. exists d1, d2. auto.
Qed.

Section Subsequence.

Variables (ignore_rules allow_rules : list FilterRule) (max_command_length : nat).

Local Abbreviation process_entry :=
  (_process_entry ignore_rules allow_rules max_command_length).

Lemma process_entry_output entry s s' :
  process_entry entry s = (inr tt, s') ->
  cleaned_entries s' = cleaned_entries s
  \/ exists ts c, parse_history_entry entry = Some (ts, c)
       /\ cleaned_entries s' = (cleaned_entries s ++ [format_entry ts c])%list.
Proof.
  intros H. unfold _process_entry in H.
  destruct (parse_history_entry entry) as [[ts c]|] eqn:Hp.
  2:{ mrun_in H. injection H as <-. left. reflexivity. }
  mrun_in H. split_matches H.
  all: injection H as <-; cbn [cleaned_entries].
  all: first [left; reflexivity | right; exists ts, c; auto].
Qed.

Lemma process_entry_acc done cur s s' :
  acc_inv done cur s -> is_nonempty cur = true ->
  process_entry cur s = (inr tt, s') ->
  sublist (cleaned_entries s') done.
Proof.
  intros [Hsub [-> | (l0 & x & -> & Hl0 & Hx & Hsub0)]] Hne H;
    [discriminate Hne|].
  destruct (process_entry_output _ _ _ H) as [-> | (ts & c & Hp & ->)];
    [exact Hsub|].
  rewrite (entry_output_first_line _ _ _ _ Hl0 Hx Hp). exact Hsub0.
Qed.

Lemma process_lines_acc lines done cur s c s' :
  Forall (fun l => all_chars Py.not_newline (Py.rstrip_nl l) = true) lines ->
  acc_inv done cur s ->
  process_lines ignore_rules allow_rules max_command_length lines cur s
  = (inr c, s') ->
  acc_inv (done ++ map Py.rstrip_nl lines) c s'.
Proof.
  revert done cur s.
  induction lines as [|raw rest IH]; intros done cur s Hl Hinv H; simpl in H.
  - injection H as <- <-. now rewrite app_nil_r.
  - apply Forall_cons in Hl as [Hraw Hl].
    cbn [map]. replace (done ++ Py.rstrip_nl raw :: map Py.rstrip_nl rest)%list
      with ((done ++ [Py.rstrip_nl raw]) ++ map Py.rstrip_nl rest)%list
      by (now rewrite <- app_assoc).
    destruct (starts_entry (Py.rstrip_nl raw)).
    + apply mbind_inr in H as ([] & s1 & H1 & H2).
      eapply IH; [exact Hl| |exact H2].
      assert (Hs1 : sublist (cleaned_entries s1) done).
      { destruct (is_nonempty cur) eqn:Hne.
        - exact (process_entry_acc _ _ _ _ Hinv Hne H1).
        - injection H1 as <-. apply Hinv. }
      split; [apply sublist_inserts_r; exact Hs1|].
      right. exists (Py.rstrip_nl raw), "". split; [now rewrite str_app_nil_r|].
      split; [exact Hraw|]. split; [now left|].
      apply sublist_app; [exact Hs1|reflexivity].
    + destruct Hinv as [Hsub Hcur].
      destruct (is_nonempty cur) eqn:Hne.
      * eapply IH; [exact Hl| |exact H].
        split; [apply sublist_inserts_r; exact Hsub|].
        destruct Hcur as [-> | (l0 & x & -> & Hl0 & Hx & Hsub0)];
          [discriminate Hne|].
        right. exists l0, (x ++ Py.nl ++ Py.rstrip_nl raw).
        split; [now rewrite str_app_assoc|]. split; [exact Hl0|].
        split; [|apply sublist_inserts_r; exact Hsub0].
        right. destruct Hx as [-> | (y & ->)].
        -- eexists. reflexivity.
        -- exists (y ++ Py.nl ++ Py.rstrip_nl raw).
           unfold Py.nl. reflexivity.
      * apply mbind_inr in H as ([] & s1 & H1 & H2).
        injection H1 as <-.
        eapply IH; [exact Hl| |exact H2].
        split; [apply sublist_inserts_r; exact Hsub|].
        left. exact (is_nonempty_false _ Hne).
Qed.

End Subsequence.

(** X15: the lines a run that returns [True] keeps are, in their order, a
    subsequence of the lines of the history file with the line ending
    removed: each output line is the first physical line of the entry
    it comes from, unchanged. *)
Theorem output_subsequence ignore_rules allow_rules max_command_length
    content s :
  run_cleaner ignore_rules allow_rules max_command_length content = (true, s) ->
  sublist (cleaned_entries s) (map Py.rstrip_nl (readlines content)).
Proof.
  intros H. apply run_cleaner_true in H.
  apply process_history_steps in H as (cur & s3 & s4 & E3 & E4 & ->).
  cbn [cleaned_entries].
  eapply (process_lines_acc _ _ _ _ []) in E3 as [Hsub Hcur];
    [|exact (readlines_lines content)
     |split; [simpl; apply sublist_nil_l|left; reflexivity]].
  destruct (is_nonempty cur) eqn:Hne.
  - exact (process_entry_acc _ _ _ _ _ _ _ (conj Hsub Hcur) Hne E4).
  - injection E4 as <-. exact Hsub.
Qed.

Lemma output_subsequence_witness :
  let s := snd (run_cleaner [git_commit_rule] [failed_commit_rule] 500
                  spaced_history) in
  run_cleaner [git_commit_rule] [failed_commit_rule] 500 spaced_history
    = (true, s)
  /\ sublist (cleaned_entries s) (map Py.rstrip_nl (readlines spaced_history)).
Proof.
  intros s.
  assert (H : run_cleaner [git_commit_rule] [failed_commit_rule] 500
                spaced_history = (true, s)) by (vm_compute; reflexivity).
  split; [exact H|].
  exact (output_subsequence [git_commit_rule] [failed_commit_rule] 500
           spaced_history s H).
Defined.

(** *** [clean] and the files *)

Lemma append_nonempty_neq (a b : string) : b <> "" -> a ++ b <> a.
Proof.
  intros Hb. induction a as [|x a IH]; cbn [String.append]; [exact Hb|].
  intros E. injection E as E. exact (IH E).
Qed.

Lemma backup_path_neq h ts : backup_path h ts <> h.
Proof. apply append_nonempty_neq. discriminate. Qed.

Lemma write_file_other path c w ok w' q :
  write_file path c w ok w' -> q <> path -> w' !! q = w !! q.
Proof.
  intros Hw Hq. destruct Hw; [| |]; try reflexivity;
    now rewrite lookup_insert_ne by congruence.
Qed.

Lemma write_file_done path c w w' :
  write_file path c w true w' -> w' = <[path:=c]> w.
Proof. intros Hw. now inversion Hw. Qed.

Lemma copy2_other src dst w ok w' q :
  copy2 src dst w ok w' -> q <> dst -> w' !! q = w !! q.
Proof.
  intros Hc Hq. destruct Hc as [|c ok w' _ Hw]; [reflexivity|].
  exact (write_file_other _ _ _ _ _ _ Hw Hq).
Qed.

Lemma copy2_done src dst w w' :
  copy2 src dst w true w' -> exists c, w !! src = Some c /\ w' = <[dst:=c]> w.
Proof.
  intros Hc. inversion Hc as [|c ok w'' Hs Hw]; subst.
  exists c. split; [exact Hs|]. exact (write_file_done _ _ _ _ Hw).
Qed.

Lemma restore_other h ts w ok w' q :
  restore_from_backup h ts w ok w' -> q <> h -> w' !! q = w !! q.
Proof.
  intros Hr Hq. destruct Hr as [_|c ok w' _ Hc]; [reflexivity|].
  exact (copy2_other _ _ _ _ _ _ Hc Hq).
Qed.

(** X16: [clean] changes no file but the history file and its backup.
    When it returns [True], the backup holds the original history, the
    run of [process_history] on it returned [True], and the history file
    holds what [write_cleaned_history] writes.  When it returns [False],
    whatever file operation raised and however much it wrote, the
    original history is still in the history file or in the backup. *)
Theorem clean_files ignore_rules allow_rules max_command_length h ts w c
    ok w' s :
  w !! h = Some c ->
  clean ignore_rules allow_rules max_command_length h ts w ok w' s ->
  (forall p, p <> h -> p <> backup_path h ts -> w' !! p = w !! p)
  /\ (ok = true ->
      run_cleaner ignore_rules allow_rules max_command_length c = (true, s)
      /\ w' !! h = Some (written_history (cleaned_entries s))
      /\ w' !! backup_path h ts = Some c)
  /\ (ok = false -> w' !! h = Some c \/ w' !! backup_path h ts = Some c).
Proof.
  intros Hh Hclean. pose proof (backup_path_neq h ts) as Hneq.
  destruct Hclean as [w1 Hb | w1 s1 ok w2 Hb Hp Hr
                     | w1 s1 w2 ok w3 Hb Hp Hw Hr | w1 s1 w2 Hb Hp Hw];
    unfold create_backup, write_cleaned_history in *.
  - split; [intros p _ Hp; exact (copy2_other _ _ _ _ _ _ Hb Hp)|].
    split; [discriminate|]. intros _. left.
    rewrite (copy2_other _ _ _ _ _ _ Hb (not_eq_sym Hneq)). exact Hh.
  - apply copy2_done in Hb as (c0 & Hc0 & ->).
    rewrite Hh in Hc0. injection Hc0 as <-.
    split.
    { intros p Hp1 Hp2. rewrite (restore_other _ _ _ _ _ _ Hr Hp1).
      now rewrite lookup_insert_ne by congruence. }
    split; [discriminate|]. intros _. right.
    rewrite (restore_other _ _ _ _ _ _ Hr Hneq). apply lookup_insert_eq.
  - apply copy2_done in Hb as (c0 & Hc0 & ->).
    rewrite Hh in Hc0. injection Hc0 as <-.
    split.
    { intros p Hp1 Hp2. rewrite (restore_other _ _ _ _ _ _ Hr Hp1).
      rewrite (write_file_other _ _ _ _ _ _ Hw Hp1).
      now rewrite lookup_insert_ne by congruence. }
    split; [discriminate|]. intros _. right.
    rewrite (restore_other _ _ _ _ _ _ Hr Hneq).
    rewrite (write_file_other _ _ _ _ _ _ Hw Hneq). apply lookup_insert_eq.
  - apply copy2_done in Hb as (c0 & Hc0 & ->).
    rewrite Hh in Hc0. injection Hc0 as <-.
    apply write_file_done in Hw as ->.
    inversion Hp as [|content Hcontent Hrun].
    rewrite lookup_insert_ne in Hcontent by congruence.
    rewrite Hh in Hcontent. injection Hcontent as <-.
    split.
    { intros p Hp1 Hp2. rewrite !lookup_insert_ne by congruence.
      reflexivity. }
    split; [|discriminate]. intros _.
    split; [now rewrite Hrun|]. split; [apply lookup_insert_eq|].
    rewrite lookup_insert_ne by congruence. apply lookup_insert_eq.
Qed.

Lemma clean_files_witness :
  let s := snd (run_cleaner [git_commit_rule] [failed_commit_rule] 500
                  duplicate_history) in
  let w1 := <[backup_path "hist" "20260101_000000" := duplicate_history]>
              sample_fs in
  let w2 := <["hist" := written_history (cleaned_entries s)]> w1 in
  sample_fs !! "hist" = Some duplicate_history
  /\ clean [git_commit_rule] [failed_commit_rule] 500 "hist" "20260101_000000"
       sample_fs true w2 s
  /\ (forall p, p <> "hist" -> p <> backup_path "hist" "20260101_000000" ->
             w2 !! p = sample_fs !! p)
  /\ (true = true ->
      run_cleaner [git_commit_rule] [failed_commit_rule] 500
        duplicate_history = (true, s)
      /\ w2 !! "hist" = Some (written_history (cleaned_entries s))
      /\ w2 !! backup_path "hist" "20260101_000000" = Some duplicate_history)
  /\ (true = false -> w2 !! "hist" = Some duplicate_history
                      \/ w2 !! backup_path "hist" "20260101_000000"
                         = Some duplicate_history).
Proof.
  intros s w1 w2.
  assert (H1 : sample_fs !! "hist" = Some duplicate_history) by reflexivity.
  assert (Hr : run_cleaner [git_commit_rule] [failed_commit_rule] 500
                 duplicate_history = (true, s)) by (vm_compute; reflexivity).
  assert (H2 : clean [git_commit_rule] [failed_commit_rule] 500 "hist"
                 "20260101_000000" sample_fs true w2 s).
  { apply (clean_done _ _ _ _ _ _ w1).
    - apply (copy2_write _ _ _ duplicate_history); [exact H1|apply write_done].
    - rewrite <- Hr. apply process_read. vm_compute. reflexivity.
    - apply write_done. }
  split; [exact H1|]. split; [exact H2|].
  exact (clean_files _ _ _ _ _ _ _ _ _ _ H1 H2).
Defined.
